(** * Review Reminder: the scheduling and bucketing core of [main.ts]

    A shallow embedding of the pure part of the plugin (interval table,
    date helpers, vault scan, bucketing, review advance) together with the
    part of the host language it runs on.

    Conventions of the embedding.
    - A JavaScript [number] is [NaN], an infinity or a rational (kept in
      lowest terms). An integer that is read ([parseInt], [Number]) or
      computed by a sum is rounded to the nearest binary64 number
      ([to_binary64]), so that n + 1 is n again at 2^53; a number with a
      fractional part is kept as the exact rational.
    - A string is a sequence of code units below 256.
    - A [Date] is its time value, an integer count of milliseconds since
      the epoch, or [None] for an Invalid Date; [setDate] clips at
      8.64e15 ms ([TimeClip]).
    - Local time is UTC shifted by a fixed offset [LocalTZA] (a zone
      without transitions); the statements on dates are put in terms of
      calendar days, which a change of the offset leaves as they are.
    - A frontmatter value is a plain object, array or primitive as a YAML
      parser builds them; an object is the list of its own properties.
      The members every object inherits from [Object.prototype] are not
      part of it: a statement that reads or writes a property under a
      name taken from the settings says that the name is none of theirs
      ([inherited_name]).
    - An abrupt completion (a thrown [TypeError]) is a value of
      [completion]. *)

From Stdlib Require Import ZArith QArith List String Ascii Bool Lia.
From Stdlib Require Import DecimalString.
From Stdlib Require Qcanon.
From Stdlib Require Qabs DecimalZ DecimalPos.
From Stdlib Require Import Permutation Sorted.
Import ListNotations.

Local Open Scope string_scope.
Local Open Scope Z_scope.

(** ** Host language: numbers *)

Inductive number : Type :=
| NaN
| Infinity (negative : bool)
| Fin (q : Q).

Definition of_Z (z : Z) : number := Fin (inject_Z z).
Definition of_nat (n : nat) : number := of_Z (Z.of_nat n).

Definition isNaN (n : number) : bool :=
  match n with NaN => true | _ => false end.

Definition Q_ltb (a b : Q) : bool :=
  Qnum a * Zpos (Qden b) <? Qnum b * Zpos (Qden a).

(** [a < b] on numbers: false as soon as one side is [NaN]. *)
Definition num_ltb (a b : number) : bool :=
  match a, b with
  | NaN, _ | _, NaN => false
  | Infinity na, Infinity nb => na && negb nb
  | Infinity na, Fin _ => na
  | Fin _, Infinity nb => negb nb
  | Fin x, Fin y => Q_ltb x y
  end.

Definition num_gtb (a b : number) : bool := num_ltb b a.

Definition num_neg (a : number) : number :=
  match a with
  | NaN => NaN
  | Infinity n => Infinity (negb n)
  | Fin x => Fin (Qred (- x))
  end.

(** The binary64 number nearest to a non-negative integer, a tie going
    to the even mantissa; [Infinity] past the range. *)
Definition to_binary64_nonneg (z : Z) : number :=
  if z <? 2 ^ 53 then of_Z z
  else
    let e := Z.log2 z - 52 in
    let q := z / 2 ^ e in
    let r := z mod 2 ^ e in
    let half := 2 ^ (e - 1) in
    let q' := if (half <? r) || ((r =? half) && Z.odd q) then q + 1 else q in
    if 2 ^ 1024 <=? q' * 2 ^ e then Infinity false else of_Z (q' * 2 ^ e).

(** The binary64 number nearest to an integer. *)
Definition to_binary64 (z : Z) : number :=
  if z <? 0 then num_neg (to_binary64_nonneg (- z)) else to_binary64_nonneg z.

(** A result that is an integer is rounded as binary64 rounds it, so that
    n + 1 is n again at 2^53; a result with a fractional part is kept as
    it is. *)
Definition round_integer (q : Q) : number :=
  let r := Qred q in
  if Zpos (Qden r) =? 1 then to_binary64 (Qnum r) else Fin r.

(** [a + b] on numbers. *)
Definition num_add (a b : number) : number :=
  match a, b with
  | NaN, _ | _, NaN => NaN
  | Infinity na, Infinity nb => if Bool.eqb na nb then Infinity na else NaN
  | Infinity na, Fin _ => Infinity na
  | Fin _, Infinity nb => Infinity nb
  | Fin x, Fin y => round_integer (x + y)
  end.

(** [a - b] on numbers. *)
Definition num_sub (a b : number) : number := num_add a (num_neg b).

(** [a === b] on numbers. *)
Definition num_eqb (a b : number) : bool :=
  match a, b with
  | Infinity na, Infinity nb => Bool.eqb na nb
  | Fin x, Fin y => Qeq_bool x y
  | _, _ => false
  end.

(** [a <= b] on numbers. *)
Definition num_leb (a b : number) : bool := num_ltb a b || num_eqb a b.

Definition is_integer (q : Q) : bool := (Zpos (Qden (Qred q)) =? 1).

(** The integer a finite number denotes, when it denotes one. *)
Definition to_integer (n : number) : option Z :=
  match n with
  | Fin q => if is_integer q then Some (Qnum (Qred q)) else None
  | _ => None
  end.

(** [a[i]] on an array: an element only when [i] is an integer index
    below the length, [undefined] ([None]) for every other key. *)
Definition array_get {A : Type} (a : list A) (i : number) : option A :=
  match to_integer i with
  | Some z => if 0 <=? z then nth_error a (Z.to_nat z) else None
  | None => None
  end.

(** ** Host language: strings *)

Definition is_digit (c : ascii) : bool :=
  let n := nat_of_ascii c in (48 <=? n)%nat && (n <=? 57)%nat.

Definition digit_value (c : ascii) : Z := Z.of_nat (nat_of_ascii c) - 48.

(** WhiteSpace and LineTerminator code units below 256. *)
Definition is_whitespace (c : ascii) : bool :=
  let n := nat_of_ascii c in
  ((9 <=? n)%nat && (n <=? 13)%nat) || (n =? 32)%nat || (n =? 160)%nat.

Fixpoint trimStart (s : string) : string :=
  match s with
  | String c s' => if is_whitespace c then trimStart s' else s
  | EmptyString => EmptyString
  end.

Fixpoint trimEnd (s : string) : string :=
  match s with
  | String c s' =>
      match trimEnd s' with
      | EmptyString => if is_whitespace c then EmptyString else String c EmptyString
      | r => String c r
      end
  | EmptyString => EmptyString
  end.

(** [s.trim()] *)
Definition trim (s : string) : string := trimEnd (trimStart s).

(** [s.split(sep)] for a separator of one code unit. *)
Fixpoint split (sep : ascii) (s : string) : list string :=
  match s with
  | EmptyString => [EmptyString]
  | String c s' =>
      if Ascii.eqb c sep then EmptyString :: split sep s'
      else match split sep s' with
           | tok :: rest => String c tok :: rest
           | [] => [String c EmptyString]
           end
  end.

(** The longest prefix of decimal digits, as a value, and how many digits
    it has. *)
Fixpoint digits_prefix (acc : Z) (count : nat) (s : string) : Z * nat * string :=
  match s with
  | String c s' =>
      if is_digit c then digits_prefix (10 * acc + digit_value c) (S count) s'
      else (acc, count, s)
  | EmptyString => (acc, count, s)
  end.

(** The integer [parseInt(s, 10)] reads: leading white space is skipped,
    one sign is accepted, the digits that follow are read and the rest of
    the string is ignored; [None] when no digit is there. *)
Definition parse_integer (s : string) : option Z :=
  let s1 := trimStart s in
  let '(neg, s2) :=
    match s1 with
    | String "-" r => (true, r)
    | String "+" r => (false, r)
    | _ => (false, s1)
    end in
  let '(v, count, _) := digits_prefix 0 0 s2 in
  match count with
  | O => None
  | S _ => Some (if neg then - v else v)
  end.

(** [parseInt(s, 10)]: the integer that is read, as a number. *)
Definition parseInt10 (s : string) : number :=
  match parse_integer s with
  | Some z => to_binary64 z
  | None => NaN
  end.

(** Digits in a radix up to 16, all of the string: used for the [0x],
    [0o] and [0b] literals. *)
Definition radix_digit (radix : Z) (c : ascii) : option Z :=
  let n := Z.of_nat (nat_of_ascii c) in
  let v := if (48 <=? n) && (n <=? 57) then n - 48
           else if (97 <=? n) && (n <=? 102) then n - 87
           else if (65 <=? n) && (n <=? 70) then n - 55
           else 16 in
  if v <? radix then Some v else None.

Fixpoint radix_digits (radix acc : Z) (s : string) : option Z :=
  match s with
  | EmptyString => Some acc
  | String c s' =>
      match radix_digit radix c with
      | Some v => radix_digits radix (radix * acc + v) s'
      | None => None
      end
  end.

Definition radix_literal (radix : Z) (s : string) : option Q :=
  match s with
  | EmptyString => None
  | _ => option_map inject_Z (radix_digits radix 0 s)
  end.

(** StrUnsignedDecimalLiteral without [Infinity]: digits, an optional
    fraction and an optional exponent, all of the string. *)
Definition decimal_literal (s : string) : option Q :=
  let '(ip, ni, r1) := digits_prefix 0 0 s in
  let '(m, nf, r2) :=
    match r1 with
    | String "." r => digits_prefix ip 0 r
    | _ => (ip, O, r1)
    end in
  if (ni + nf =? 0)%nat then None
  else
    let exponent :=
      match r2 with
      | EmptyString => Some 0
      | String c r =>
          if Ascii.eqb c "e" || Ascii.eqb c "E" then
            let '(neg, r') :=
              match r with
              | String "-" x => (true, x)
              | String "+" x => (false, x)
              | _ => (false, r)
              end in
            match digits_prefix 0 0 r' with
            | (_, O, _) => None
            | (e, S _, EmptyString) => Some (if neg then - e else e)
            | (_, S _, String _ _) => None
            end
          else None
      end in
    match exponent with
    | Some e => Some (Qred (inject_Z m * Qpower (inject_Z 10) (e - Z.of_nat nf)))
    | None => None
    end.

(** StringToNumber: the value of a string as a StringNumericLiteral,
    [NaN] when it is not one. *)
Definition StringToNumber (s : string) : number :=
  let fin o := match o with Some q => round_integer q | None => NaN end in
  match trim s with
  | EmptyString => of_Z 0
  | "Infinity" | "+Infinity" => Infinity false
  | "-Infinity" => Infinity true
  | String "0" (String "x" r) | String "0" (String "X" r) => fin (radix_literal 16 r)
  | String "0" (String "o" r) | String "0" (String "O" r) => fin (radix_literal 8 r)
  | String "0" (String "b" r) | String "0" (String "B" r) => fin (radix_literal 2 r)
  | String "-" r => fin (option_map Qopp (decimal_literal r))
  | String "+" r => fin (decimal_literal r)
  | t => fin (decimal_literal t)
  end.

(** [String.prototype.padStart(2, "0")] *)
Definition padStart2 (s : string) : string :=
  match s with
  | EmptyString => "00"
  | String c EmptyString => String "0" s
  | _ => s
  end.

(** ** Host language: the environment *)

(** What the program takes from its host and the embedding leaves open:
    the offset of local time, the result of [Date.parse] on a string that
    is not a plain [YYYY-MM-DD] date (the other ISO forms and the
    implementation-defined fallback; [None] is [NaN]), and the digits
    printed for a number that is not an integer below 1e21. *)
Record Host : Type := {
  LocalTZA : Z;
  Date_parse_other : string -> option Z;
  Number_toString_other : Q -> string
}.

(** ** Host language: values *)

#[local] Set Warnings "-register-all".

Inductive value : Type :=
| VUndefined
| VNull
| VBoolean (b : bool)
| VNumber (n : number)
| VString (s : string)
| VArray (elements : list value)
| VObject (properties : list (string * value)).

Inductive error : Type := TypeError.

Inductive completion (A : Type) : Type :=
| Normal (a : A)
| Throw (e : error).
Arguments Normal {A} a.
Arguments Throw {A} e.

Definition bind {A B : Type} (c : completion A) (k : A -> completion B)
  : completion B :=
  match c with
  | Normal a => k a
  | Throw e => Throw e
  end.

(** Whether a plain object has an own property [key]. *)
Fixpoint has_own (o : list (string * value)) (key : string) : bool :=
  match o with
  | [] => false
  | (k, _) :: rest => String.eqb k key || has_own rest key
  end.

Definition Z_toString (z : Z) : string := NilZero.string_of_int (Z.to_int z).

Section Values.
Variable h : Host.

(** [Number.prototype.toString()] *)
Definition Number_toString (n : number) : string :=
  match n with
  | NaN => "NaN"
  | Infinity false => "Infinity"
  | Infinity true => "-Infinity"
  | Fin q =>
      match to_integer n with
      | Some z => if Z.abs z <? 10 ^ 21 then Z_toString z
                  else Number_toString_other h q
      | None => Number_toString_other h q
      end
  end.

(** [String(v)]. An array prints its elements from left to right, joined
    by commas, with nothing for [undefined] and [null]. A plain object
    prints as ["[object Object]"] through the [toString] it inherits; with
    an own property [toString], which holds data and cannot be called, no
    conversion is left and a [TypeError] is thrown. *)
Fixpoint ToString (v : value) : completion string :=
  match v with
  | VUndefined => Normal "undefined"
  | VNull => Normal "null"
  | VBoolean b => Normal (if b then "true" else "false")
  | VNumber n => Normal (Number_toString n)
  | VString s => Normal s
  | VArray elements =>
      (fix join (l : list value) : completion string :=
         match l with
         | [] => Normal EmptyString
         | x :: rest =>
             bind (match x with
                   | VUndefined | VNull => Normal EmptyString
                   | _ => ToString x
                   end)
               (fun sx =>
                  match rest with
                  | [] => Normal sx
                  | _ :: _ =>
                      bind (join rest) (fun sr => Normal (sx ++ "," ++ sr))
                  end)
         end) elements
  | VObject properties =>
      if has_own properties "toString" then Throw TypeError
      else Normal "[object Object]"
  end.

(** [Number(v)]; an array or an object goes through its string. *)
Definition ToNumber (v : value) : completion number :=
  match v with
  | VUndefined => Normal NaN
  | VNull => Normal (of_Z 0)
  | VBoolean b => Normal (if b then of_Z 1 else of_Z 0)
  | VNumber n => Normal n
  | VString s => Normal (StringToNumber s)
  | VArray _ | VObject _ =>
      bind (ToString v) (fun s => Normal (StringToNumber s))
  end.

(** [elements.map(String)], from left to right. *)
Fixpoint map_ToString (elements : list value) : completion (list string) :=
  match elements with
  | [] => Normal []
  | x :: rest =>
      bind (ToString x)
        (fun s => bind (map_ToString rest) (fun ss => Normal (s :: ss)))
  end.
End Values.

(** The truth value of [v], as [!v] and [if (v)] take it. *)
Definition ToBoolean (v : value) : bool :=
  match v with
  | VUndefined | VNull => false
  | VBoolean b => b
  | VNumber NaN => false
  | VNumber (Infinity _) => true
  | VNumber (Fin q) => negb (Qnum q =? 0)
  | VString s => negb (String.eqb s EmptyString)
  | VArray _ | VObject _ => true
  end.

(** [a ?? b] *)
Definition nullish (a b : value) : value :=
  match a with
  | VUndefined | VNull => b
  | _ => a
  end.

(** [o[key]] on a plain object: the own property, [undefined] when there
    is none. *)
Fixpoint get (o : list (string * value)) (key : string) : value :=
  match o with
  | [] => VUndefined
  | (k, v) :: rest => if String.eqb k key then v else get rest key
  end.

(** [o[key] = v] on a plain object. *)
Fixpoint set (o : list (string * value)) (key : string) (v : value)
  : list (string * value) :=
  match o with
  | [] => [(key, v)]
  | (k, w) :: rest =>
      if String.eqb k key then (k, v) :: rest else (k, w) :: set rest key v
  end.

(** The names every object inherits from [Object.prototype]. Under one of
    them [o[key]] finds the inherited member when [o] has no own property,
    and [o["__proto__"] = v] stores nothing; [get] and [set] describe the
    other keys, and the statements that depend on it say so with
    [inherited_name]. *)
Definition Object_prototype_names : list string :=
  ["constructor"; "__defineGetter__"; "__defineSetter__"; "hasOwnProperty";
   "__lookupGetter__"; "__lookupSetter__"; "isPrototypeOf";
   "propertyIsEnumerable"; "toString"; "valueOf"; "__proto__";
   "toLocaleString"].

Definition inherited_name (key : string) : bool :=
  existsb (String.eqb key) Object_prototype_names.

(** ** Host language: time values and dates *)

Definition msPerDay : Z := 86400000.

Definition Day (t : Z) : Z := t / msPerDay.
Definition TimeWithinDay (t : Z) : Z := t mod msPerDay.

Definition DaysInYear (y : Z) : Z :=
  if negb (y mod 4 =? 0) then 365
  else if negb (y mod 100 =? 0) then 366
  else if negb (y mod 400 =? 0) then 365
  else 366.

Definition DayFromYear (y : Z) : Z :=
  365 * (y - 1970) + (y - 1969) / 4 - (y - 1901) / 100 + (y - 1601) / 400.

Definition TimeFromYear (y : Z) : Z := msPerDay * DayFromYear y.

(** The largest year that starts at or before [t]: an estimate from the
    mean length of a year, corrected by one where needed. *)
Definition YearFromTime (t : Z) : Z :=
  let y := 1970 + (400 * Day t) / 146097 in
  if DayFromYear (y + 1) <=? Day t then y + 1
  else if DayFromYear y <=? Day t then y
  else y - 1.

Definition InLeapYear (t : Z) : Z :=
  if DaysInYear (YearFromTime t) =? 366 then 1 else 0.

Definition DayWithinYear (t : Z) : Z := Day t - DayFromYear (YearFromTime t).

Definition MonthFromTime (t : Z) : Z :=
  let d := DayWithinYear t in
  let leap := InLeapYear t in
  if d <? 31 then 0
  else if d <? 59 + leap then 1
  else if d <? 90 + leap then 2
  else if d <? 120 + leap then 3
  else if d <? 151 + leap then 4
  else if d <? 181 + leap then 5
  else if d <? 212 + leap then 6
  else if d <? 243 + leap then 7
  else if d <? 273 + leap then 8
  else if d <? 304 + leap then 9
  else if d <? 334 + leap then 10
  else 11.

Definition DateFromTime (t : Z) : Z :=
  let d := DayWithinYear t in
  let leap := InLeapYear t in
  match MonthFromTime t with
  | 0 => d + 1
  | 1 => d - 30
  | 2 => d - 58 - leap
  | 3 => d - 89 - leap
  | 4 => d - 119 - leap
  | 5 => d - 150 - leap
  | 6 => d - 180 - leap
  | 7 => d - 211 - leap
  | 8 => d - 242 - leap
  | 9 => d - 272 - leap
  | 10 => d - 303 - leap
  | _ => d - 333 - leap
  end.

(** The day within its year on which month [m] (0 to 11) starts. *)
Definition month_start (leap m : Z) : Z :=
  match m with
  | 0 => 0
  | 1 => 31
  | 2 => 59 + leap
  | 3 => 90 + leap
  | 4 => 120 + leap
  | 5 => 151 + leap
  | 6 => 181 + leap
  | 7 => 212 + leap
  | 8 => 243 + leap
  | 9 => 273 + leap
  | 10 => 304 + leap
  | _ => 334 + leap
  end.

(** The day number of the first of month [month] of [year], plus
    [date - 1]; months outside 0 to 11 carry into the year. *)
Definition MakeDay (year month date : Z) : Z :=
  let ym := year + month / 12 in
  let mn := month mod 12 in
  let leap := if DaysInYear ym =? 366 then 1 else 0 in
  DayFromYear ym + month_start leap mn + date - 1.

Definition MakeDate (day time : Z) : Z := day * msPerDay + time.

Definition DaysInMonth (year month : Z) : Z :=
  MakeDay year (month + 1) 1 - MakeDay year month 1.

(** ToIntegerOrInfinity on a finite number; [None] when not finite. *)
Definition finite_trunc (n : number) : option Z :=
  match n with
  | Fin q => Some (Z.quot (Qnum q) (Zpos (Qden q)))
  | _ => None
  end.

Definition Date : Type := option Z.

(** The largest time value of a date, 100 000 000 days from the epoch. *)
Definition maxTime : Z := 8640000000000000.

Definition TimeClip (t : Z) : Date :=
  if Z.abs t <=? maxTime then Some t else None.

(** [YYYY-MM-DD] with a month and a day that exist: the date-only form of
    the date-time string format, read as UTC midnight. *)
Definition parse_date_only (s : string) : option Z :=
  match s with
  | String y1 (String y2 (String y3 (String y4 (String "-"
      (String m1 (String m2 (String "-"
        (String d1 (String d2 EmptyString))))))))) =>
      if forallb is_digit [y1; y2; y3; y4; m1; m2; d1; d2] then
        let y := 1000 * digit_value y1 + 100 * digit_value y2
                 + 10 * digit_value y3 + digit_value y4 in
        let m := 10 * digit_value m1 + digit_value m2 in
        let d := 10 * digit_value d1 + digit_value d2 in
        if (1 <=? m) && (m <=? 12) && (1 <=? d) && (d <=? DaysInMonth y (m - 1))
        then Some (MakeDate (MakeDay y (m - 1) d) 0)
        else None
      else None
  | _ => None
  end.

Section Dates.
Variable h : Host.

Definition LocalTime (t : Z) : Z := t + LocalTZA h.
Definition UTC (t : Z) : Z := t - LocalTZA h.

(** [new Date(s)] for a string [s] *)
Definition Date_of_string (s : string) : Date :=
  match parse_date_only s with
  | Some t => Some t
  | None => Date_parse_other h s
  end.

(** [new Date(year, month, date)]: local midnight; a year from 0 to 99
    stands for 1900 + year. *)
Definition Date_of_components (year month date : number) : Date :=
  match finite_trunc year, finite_trunc month, finite_trunc date with
  | Some y, Some m, Some dt =>
      let yr := if (0 <=? y) && (y <=? 99) then 1900 + y else y in
      Some (UTC (MakeDate (MakeDay yr m dt) 0))
  | _, _, _ => None
  end.

Definition getFullYear (d : Date) : number :=
  match d with
  | Some t => of_Z (YearFromTime (LocalTime t))
  | None => NaN
  end.

Definition getMonth (d : Date) : number :=
  match d with
  | Some t => of_Z (MonthFromTime (LocalTime t))
  | None => NaN
  end.

Definition getDate (d : Date) : number :=
  match d with
  | Some t => of_Z (DateFromTime (LocalTime t))
  | None => NaN
  end.

(** [d.setDate(dt)], as the date [d] holds afterwards: a time value out
    of the range of dates leaves an Invalid Date. *)
Definition setDate (d : Date) (dt : number) : Date :=
  match d with
  | Some u =>
      let t := LocalTime u in
      match finite_trunc dt with
      | Some n =>
          TimeClip (UTC (MakeDate (MakeDay (YearFromTime t) (MonthFromTime t) n)
                                  (TimeWithinDay t)))
      | None => None
      end
  | None => None
  end.

(** [Math.round(n / d)] for integers [n] and [d > 0]: halves go up. *)
Definition Math_round_div (n d : Z) : Z := (2 * n + d) / (2 * d).
End Dates.

(** [Array.prototype.sort(cmp)]: the sort is stable, so for a comparator
    that orders its arguments consistently the result is the one stable
    ordering; it is computed here by insertion from the right, an element
    going behind those the comparator puts strictly before it. *)
Fixpoint sort_insert {A : Type} (cmp : A -> A -> number) (x : A) (l : list A)
  : list A :=
  match l with
  | [] => [x]
  | y :: l' =>
      if num_gtb (cmp x y) (of_Z 0) then y :: sort_insert cmp x l' else x :: l
  end.

Definition Array_sort {A : Type} (cmp : A -> A -> number) (l : list A) : list A :=
  fold_right (sort_insert cmp) [] l.

(** ** Interval table ([main.ts], lines 56-68) *)

Definition parseIntervals (raw : string) : list number :=
  filter (fun n => negb (isNaN n) && num_gtb n (of_Z 0))
         (map (fun s => parseInt10 (trim s)) (split "," raw)).

Definition getInterval (intervals : list number) (level : number) : option number :=
  if (List.length intervals =? 0)%nat then Some (of_Z 1)
  else if num_ltb level (of_nat (List.length intervals))
       then array_get intervals level
       else array_get intervals (of_nat (List.length intervals - 1)).

(** The interval table in the words of its contract: a token of the
    comma-separated input survives when, trimmed, it reads as an integer
    and that integer is positive; the table is the surviving integers in
    the order of their tokens. *)
Definition survives (token : string) : option Z :=
  match parse_integer (trim token) with
  | Some z => if 0 <? z then Some z else None
  | None => None
  end.

Definition table_of_tokens (raw : string) : list Z :=
  flat_map (fun token => match survives token with
                         | Some z => [z]
                         | None => []
                         end)
           (split "," raw).

(** [tokens.join(sep)] *)
Fixpoint join (sep : ascii) (tokens : list string) : string :=
  match tokens with
  | [] => EmptyString
  | [t] => t
  | t :: rest => t ++ String sep (join sep rest)
  end.

Fixpoint contains (c : ascii) (s : string) : bool :=
  match s with
  | EmptyString => false
  | String c' s' => Ascii.eqb c' c || contains c s'
  end.

(** ** Records of the plugin ([main.ts], lines 29-81) *)

Record ReviewReminderSettings : Type := {
  dateProperty : string;
  freqProperty : string;
  upcomingDays : number;
  intervals : string;
  notifyOnStartup : bool
}.

Definition DEFAULT_SETTINGS : ReviewReminderSettings := {|
  dateProperty := "review_next";
  freqProperty := "review_freq";
  upcomingDays := of_Z 7;
  intervals := "1, 6, 9, 19, 75";
  notifyOnStartup := true
|}.

(** A file of the vault, as far as the plugin looks at it. *)
Record TFile : Type := {
  path : string;
  basename : string
}.

Record ReviewNote : Type := {
  file : TFile;
  title : string;
  reviewNext : Date;
  reviewFreq : number;
  tags : list string;
  daysUntil : number
}.

Record Buckets : Type := {
  overdue : list ReviewNote;
  today : list ReviewNote;
  upcoming : list ReviewNote;
  later : list ReviewNote
}.

(** A markdown file with the frontmatter of its cache entry; [None] when
    the cache has no entry or the entry has no frontmatter. *)
Definition Vault : Type := list (TFile * option (list (string * value))).

(** ** Date helpers ([main.ts], lines 83-96) *)

Section Plugin.
Variable h : Host.
Variable settings : ReviewReminderSettings.

Definition toDateString (d : Date) : string :=
  let y := getFullYear h d in
  let m := padStart2 (Number_toString h (num_add (getMonth h d) (of_Z 1))) in
  let day := padStart2 (Number_toString h (getDate h d)) in
  Number_toString h y ++ "-" ++ m ++ "-" ++ day.

Definition stripTime (d : Date) : Date :=
  Date_of_components h (getFullYear h d) (getMonth h d) (getDate h d).

Definition daysBetween (a b : Date) : number :=
  match a, b with
  | Some ta, Some tb => of_Z (Math_round_div (tb - ta) 86400000)
  | _, _ => NaN
  end.

(** ** Scan ([main.ts], lines 171-202) *)

(** [v.map(String)]: only an array has a [map] to call. *)
Definition map_String (v : value) : completion (list string) :=
  match v with
  | VArray elements => map_ToString h elements
  | _ => Throw TypeError
  end.

(** One turn of the loop over the files: [Normal None] is [continue],
    [Normal (Some n)] pushes [n]. *)
Definition scan_file (today : Date) (file : TFile)
    (cache : option (list (string * value))) : completion (option ReviewNote) :=
  match cache with
  | None => Normal None
  | Some frontmatter =>
      let raw := get frontmatter (dateProperty settings) in
      if negb (ToBoolean raw) then Normal None
      else
        bind (ToString h raw)
          (fun s =>
             let reviewNext := stripTime (Date_of_string h s) in
             match reviewNext with
             | None => Normal None
             | Some _ =>
                 bind (ToNumber h (nullish (get frontmatter (freqProperty settings))
                                           (VNumber (of_Z 0))))
                   (fun reviewFreq =>
                      bind (map_String
                              (nullish (get frontmatter "tags") (VArray [])))
                        (fun tags =>
                           Normal
                             (Some {| file := file;
                                      title := basename file;
                                      reviewNext := reviewNext;
                                      reviewFreq := reviewFreq;
                                      tags := tags;
                                      daysUntil :=
                                        daysBetween today reviewNext |})))
             end)
  end.

Fixpoint scan_loop (today : Date) (files : Vault) (notes : list ReviewNote)
  : completion (list ReviewNote) :=
  match files with
  | [] => Normal notes
  | (file, cache) :: rest =>
      bind (scan_file today file cache)
        (fun r =>
           scan_loop today rest
             (match r with Some n => notes ++ [n] | None => notes end))
  end.

(** [now] is the time value [new Date()] reads from the clock. *)
Definition scanVault (now : Z) (files : Vault) : completion (list ReviewNote) :=
  let today := stripTime (Some now) in
  bind (scan_loop today files [])
    (fun notes =>
       Normal (Array_sort (fun a b => num_sub (daysUntil a) (daysUntil b)) notes)).

(** ** Buckets ([main.ts], lines 204-219) *)

(** One turn of the loop of [bucketize]. *)
Definition bucketize_step (threshold : number) (buckets : Buckets)
    (n : ReviewNote) : Buckets :=
  if num_ltb (daysUntil n) (of_Z 0) then
    {| overdue := overdue buckets ++ [n]; today := today buckets;
       upcoming := upcoming buckets; later := later buckets |}
  else if num_eqb (daysUntil n) (of_Z 0) then
    {| overdue := overdue buckets; today := today buckets ++ [n];
       upcoming := upcoming buckets; later := later buckets |}
  else if num_leb (daysUntil n) threshold then
    {| overdue := overdue buckets; today := today buckets;
       upcoming := upcoming buckets ++ [n]; later := later buckets |}
  else
    {| overdue := overdue buckets; today := today buckets;
       upcoming := upcoming buckets; later := later buckets ++ [n] |}.

Definition bucketize (notes : list ReviewNote) : Buckets :=
  let threshold := upcomingDays settings in
  fold_left (bucketize_step threshold) notes
            {| overdue := []; today := []; upcoming := []; later := [] |}.

(** ** Review ([main.ts], lines 268-277 and 534-576) *)

(** The idiom of lines 538-539 and 571-572: a date read from the clock
    and moved by [days] with [setDate(getDate() + days)]; an [undefined]
    operand of [+] counts as [NaN]. *)
Definition plusDays (now : Z) (days : option number) : Date :=
  let d := Some now in
  setDate h d (num_add (getDate h d)
                       (match days with Some n => n | None => NaN end)).

(** What [onOpen] computes before it draws the modal: the new level, the
    interval of the table and the date the confirm button applies. *)
Definition ReviewModal_onOpen (now : Z) (note : ReviewNote)
  : number * option number * Date :=
  let currentFreq := reviewFreq note in
  let newFreq := num_add currentFreq (of_Z 1) in
  let intervals := parseIntervals (intervals settings) in
  let interval := getInterval intervals currentFreq in
  let nextDate := plusDays now interval in
  (newFreq, interval, nextDate).

Definition quickOptions : list (string * number) :=
  [("1d", of_Z 1); ("3d", of_Z 3); ("1w", of_Z 7);
   ("2w", of_Z 14); ("1m", of_Z 30); ("3m", of_Z 90)].

(** The date a quick-pick button applies, the clock read at the click. *)
Definition quickPick_date (now : Z) (days : number) : Date :=
  plusDays now (Some days).

(** The callback [applyReview] hands to [processFrontMatter]. *)
Definition applyReview (fm : list (string * value)) (nextDate : Date)
    (newFreq : number) : list (string * value) :=
  let fm := set fm (freqProperty settings) (VNumber newFreq) in
  set fm (dateProperty settings) (VString (toDateString nextDate)).
End Plugin.

(** ** Labels ([main.ts], lines 18-25 and 98-108) *)

(** [Math.abs(n)] *)
Definition Math_abs (n : number) : number :=
  match n with
  | NaN => NaN
  | Infinity _ => Infinity false
  | Fin q => Fin (Qred (Qabs.Qabs q))
  end.

(** The keys of an object are strings: a number used as a key is looked up
    by the string it prints as. *)
Definition SR_LABELS : list (string * string) :=
  [("0", "New"); ("1", "1st pass"); ("2", "2nd pass");
   ("3", "3rd pass"); ("4", "4th pass"); ("5", "Evergreen")].

Fixpoint label_of (labels : list (string * string)) (key : string)
  : option string :=
  match labels with
  | [] => None
  | (k, l) :: rest => if String.eqb k key then Some l else label_of rest key
  end.

Section Labels.
Variable h : Host.

Definition relativeLabel (days : number) : string :=
  if num_ltb days (of_Z (-1)) then
    Number_toString h (Math_abs days) ++ " days overdue"
  else if num_eqb days (of_Z (-1)) then "1 day overdue"
  else if num_eqb days (of_Z 0) then "Today"
  else if num_eqb days (of_Z 1) then "Tomorrow"
  else "in " ++ Number_toString h days ++ " days".

Definition levelLabel (freq : number) : string :=
  match label_of SR_LABELS (Number_toString h freq) with
  | Some l => l
  | None => "Level " ++ Number_toString h freq
  end.
End Labels.

(** ** Settings form ([main.ts], lines 301-325) *)

(** [a || b] on strings: [b] when [a] is empty. *)
Definition or_string (a b : string) : string :=
  match a with
  | EmptyString => b
  | _ => a
  end.

(** The [onChange] handlers of the two property names. *)
Definition onChange_dateProperty (settings : ReviewReminderSettings)
    (value : string) : ReviewReminderSettings :=
  {| dateProperty := or_string (trim value) "review_next";
     freqProperty := freqProperty settings;
     upcomingDays := upcomingDays settings;
     intervals := intervals settings;
     notifyOnStartup := notifyOnStartup settings |}.

Definition onChange_freqProperty (settings : ReviewReminderSettings)
    (value : string) : ReviewReminderSettings :=
  {| dateProperty := dateProperty settings;
     freqProperty := or_string (trim value) "review_freq";
     upcomingDays := upcomingDays settings;
     intervals := intervals settings;
     notifyOnStartup := notifyOnStartup settings |}.

(** ** Vocabulary of the statements *)

(** The day count of a note as an integer; every note a scan builds has
    one ([whole_days]). *)
Definition days (n : ReviewNote) : Z :=
  match to_integer (daysUntil n) with
  | Some z => z
  | None => 0
  end.

Definition whole_days (n : ReviewNote) : Prop := daysUntil n = of_Z (days n).

(** The notes a scan pushes, in the order it meets their files. *)
Definition encountered (h : Host) (settings : ReviewReminderSettings)
    (today : Date) (files : Vault) : list ReviewNote :=
  flat_map (fun fc => match scan_file h settings today (fst fc) (snd fc) with
                      | Normal (Some n) => [n]
                      | _ => []
                      end) files.

(** A year from 1000 to 9999 prints as four digits, a month or a day as
    two after padding: the checks behind [year_string] and [pair_string]. *)
Definition year_digits_ok (y : Z) : bool :=
  match Z_toString y with
  | String a (String b (String c (String d EmptyString))) =>
      forallb is_digit [a; b; c; d]
      && (1000 * digit_value a + 100 * digit_value b
          + 10 * digit_value c + digit_value d =? y)
  | _ => false
  end.

Definition pair_digits_ok (n : Z) : bool :=
  match padStart2 (Z_toString n) with
  | String a (String b EmptyString) =>
      is_digit a && is_digit b && (10 * digit_value a + digit_value b =? n)
  | _ => false
  end.

(** Sample data. *)
Definition sample_file : TFile := {| path := "notes/a.md"; basename := "a" |}.

Definition sample_note (d : Z) : ReviewNote := {|
  file := sample_file;
  title := "a";
  reviewNext := None;
  reviewFreq := of_Z 2;
  tags := [];
  daysUntil := of_Z d
|}.

Definition sample_vault : Vault :=
  [(sample_file, Some [("review_next", VString "2025-03-09");
                       ("review_freq", VNumber (of_Z 1))]);
   (sample_file, None);
   (sample_file, Some [("review_next", VString "2025-02-27");
                       ("tags", VArray [VString "x"; VNumber (of_Z 3)])]);
   (sample_file, Some [("review_next", VString "2025-03-09");
                       ("review_freq", VString "4")])].

(** The time value of the start of the year 10000 (UTC). *)
Definition year10000 : Z := 253402300800000.

Definition sample_settings (table : string) : ReviewReminderSettings := {|
  dateProperty := "review_next";
  freqProperty := "review_freq";
  upcomingDays := of_Z 7;
  intervals := table;
  notifyOnStartup := true
|}.

Definition sample_note_at (level : number) : ReviewNote := {|
  file := sample_file;
  title := "a";
  reviewNext := None;
  reviewFreq := level;
  tags := [];
  daysUntil := of_Z 0
|}.

Definition sample_host (tza : Z) : Host := {|
  LocalTZA := tza;
  Date_parse_other := fun _ => None;
  Number_toString_other := fun _ => EmptyString
|}.

(** * Properties *)

Local Open Scope list_scope.

(** ** The embedding on known values *)

Example split_values :
  split "," "a,,b," = ["a"; EmptyString; "b"; EmptyString] /\
  split "," EmptyString = [EmptyString] /\
  trim "  a b  " = "a b".
Proof. repeat split. Qed.

Example parseInt10_values :
  parseInt10 "  -12abc" = of_Z (-12) /\ parseInt10 "3.7" = of_Z 3 /\
  parseInt10 "0x10" = of_Z 0 /\ parseInt10 "+" = NaN /\
  parseInt10 EmptyString = NaN.
Proof. vm_compute. repeat split. Qed.

(** 2^53 + 1 is not a binary64 number and goes to the even neighbour;
    2^53 + 3 goes up to 2^53 + 4; the largest binary64 number is kept and
    half a unit in the last place above it overflows. *)
Example to_binary64_values :
  parseInt10 "9007199254740993" = of_Z 9007199254740992 /\
  parseInt10 "9007199254740995" = of_Z 9007199254740996 /\
  parseInt10 "-9007199254740993" = of_Z (-9007199254740992) /\
  to_binary64 (2 ^ 1024 - 2 ^ 971) = of_Z (2 ^ 1024 - 2 ^ 971) /\
  to_binary64 (2 ^ 1024 - 2 ^ 971 + 2 ^ 970 - 1) = of_Z (2 ^ 1024 - 2 ^ 971) /\
  to_binary64 (2 ^ 1024 - 2 ^ 971 + 2 ^ 970) = Infinity false /\
  to_binary64 (10 ^ 309) = Infinity false.
Proof. vm_compute. repeat split. Qed.

Example StringToNumber_values :
  StringToNumber "abc" = NaN /\ StringToNumber " 12 " = of_Z 12 /\
  StringToNumber EmptyString = of_Z 0 /\ StringToNumber "2.5" = Fin (5 # 2) /\
  StringToNumber "-1e3" = of_Z (-1000) /\ StringToNumber "0x1F" = of_Z 31 /\
  StringToNumber "12abc" = NaN /\ StringToNumber "1e" = NaN.
Proof. vm_compute. repeat split. Qed.

Example ToString_values :
  ToString (sample_host 0)
    (VArray [VNumber (of_Z 12); VNull; VString "a";
             VArray [VNumber (of_Z (-3)); VBoolean true]])
  = Normal "12,,a,-3,true" /\
  ToNumber (sample_host 0) (VArray [VNumber (of_Z 7)]) = Normal (of_Z 7) /\
  ToNumber (sample_host 0) (VObject []) = Normal NaN /\
  ToString (sample_host 0) (VObject [("toString", VString "x")])
  = Throw TypeError /\
  ToNumber (sample_host 0)
    (VArray [VNumber (of_Z 1); VObject [("toString", VNull)]])
  = Throw TypeError.
Proof. vm_compute. repeat split. Qed.

(** 1970-01-01, the last day of 1969, the leap day of 2000 and the day
    after, the turn of 2100 (no leap year), the start of year 0. *)
Example calendar_values :
  map (fun t => (YearFromTime t, MonthFromTime t, DateFromTime t))
      [0; -1; 951782400000; 951868800000; 4102444799999; 4102444800000;
       -62167219200000]
  = [(1970, 0, 1); (1969, 11, 31); (2000, 1, 29); (2000, 2, 1);
     (2099, 11, 31); (2100, 0, 1); (0, 0, 1)] /\
  map (DaysInMonth 2024) [0; 1; 11] = [31; 29; 31] /\
  DaysInMonth 2100 1 = 28.
Proof. vm_compute. repeat split. Qed.

Example Date_of_string_values :
  parse_date_only "2025-03-01" = Some 1740787200000 /\
  parse_date_only "2024-02-29" = Some 1709164800000 /\
  parse_date_only "2025-02-29" = None /\
  parse_date_only "not-a-date" = None /\
  parse_date_only "2025-3-1" = None.
Proof. vm_compute. repeat split. Qed.

Example Math_round_div_values :
  map (fun n => Math_round_div n 2) [-5; -3; -1; 1; 3; 5] = [-2; -1; 0; 1; 2; 3].
Proof. reflexivity. Qed.

(** A scan on the first of March 2025 (UTC): the notes come out by day
    count, the two notes at 8 days in the order of their files. *)
Example scanVault_values :
  match scanVault (sample_host 0) DEFAULT_SETTINGS 1740805200123 sample_vault with
  | Normal notes => map (fun n => (days n, reviewFreq n, tags n)) notes
  | Throw _ => []
  end
  = [(-2, of_Z 0, ["x"; "3"]); (8, of_Z 1, []); (8, of_Z 4, [])].
Proof. vm_compute. reflexivity. Qed.

Example ReviewModal_onOpen_values :
  ReviewModal_onOpen (sample_host 0) DEFAULT_SETTINGS 1740805200123 (sample_note 0)
  = (of_Z 3, Some (of_Z 9), Some (1740805200123 + 9 * 86400000)) /\
  toDateString (sample_host 0)
    (plusDays (sample_host 0) 1740805200123 (Some (of_Z 31))) = "2025-04-01" /\
  toDateString (sample_host 0) None = "NaN-NaN-NaN".
Proof. vm_compute. repeat split. Qed.

(** ** Numbers *)

Lemma Qred_inject_Z (z : Z) : Qred (inject_Z z) = inject_Z z.
Proof.
  apply Qcanon.Qred_identity. simpl. apply Z.gcd_1_r.
Qed.

Lemma to_integer_of_Z (z : Z) : to_integer (of_Z z) = Some z.
Proof.
  unfold to_integer, of_Z, is_integer. rewrite Qred_inject_Z. reflexivity.
Qed.

Lemma num_ltb_of_Z (a b : Z) : num_ltb (of_Z a) (of_Z b) = (a <? b).
Proof.
  unfold num_ltb, of_Z, Q_ltb. simpl. now rewrite !Z.mul_1_r.
Qed.

Lemma num_eqb_of_Z (a b : Z) : num_eqb (of_Z a) (of_Z b) = (a =? b).
Proof.
  unfold num_eqb, of_Z, Qeq_bool. simpl. now rewrite !Z.mul_1_r.
Qed.

Lemma num_leb_of_Z (a b : Z) : num_leb (of_Z a) (of_Z b) = (a <=? b).
Proof.
  unfold num_leb. rewrite num_ltb_of_Z, num_eqb_of_Z.
  destruct (Z.ltb_spec a b), (Z.eqb_spec a b), (Z.leb_spec a b);
    simpl; try reflexivity; lia.
Qed.

Lemma of_Z_inj (a b : Z) : of_Z a = of_Z b -> a = b.
Proof. unfold of_Z, inject_Z. congruence. Qed.

Lemma num_neg_of_Z (z : Z) : num_neg (of_Z z) = of_Z (- z).
Proof.
  unfold num_neg, of_Z. f_equal.
  change (- inject_Z z)%Q with (inject_Z (- z)). apply Qred_inject_Z.
Qed.

Lemma to_binary64_nonneg_large (z : Z) :
  2 ^ 53 <= z ->
  to_binary64_nonneg z = Infinity false \/
  exists m, 2 ^ 53 <= m /\ to_binary64_nonneg z = of_Z m.
Proof.
  intros Hz. unfold to_binary64_nonneg.
  destruct (Z.ltb_spec z (2 ^ 53)) as [E | _]; [lia |].
  cbv zeta.
  set (e := Z.log2 z - 52).
  set (up := (_ <? _) || _).
  set (q' := if up then z / 2 ^ e + 1 else z / 2 ^ e).
  destruct (2 ^ 1024 <=? q' * 2 ^ e); [now left | right].
  exists (q' * 2 ^ e). split; [| reflexivity].
  assert (Hlog : 53 <= Z.log2 z).
  { change 53 with (Z.log2 (2 ^ 53)). apply Z.log2_le_mono. exact Hz. }
  assert (He : 1 <= e) by (unfold e; lia).
  assert (Hp : 0 < 2 ^ e) by (apply Z.pow_pos_nonneg; lia).
  assert (Hq : 2 ^ 52 <= z / 2 ^ e).
  { apply Z.div_le_lower_bound; [exact Hp |].
    rewrite Z.mul_comm, <- Z.pow_add_r by lia.
    replace (52 + e) with (Z.log2 z) by (unfold e; lia).
    apply Z.log2_spec. lia. }
  assert (Hq' : 2 ^ 52 <= q') by (unfold q'; destruct up; lia).
  assert (H2 : 2 <= 2 ^ e).
  { change 2 with (2 ^ 1) at 1. apply Z.pow_le_mono_r; lia. }
  change (2 ^ 53) with (2 ^ 52 * 2). apply Z.mul_le_mono_nonneg; lia.
Qed.

Lemma to_binary64_exact (z : Z) : Z.abs z <= 2 ^ 53 -> to_binary64 z = of_Z z.
Proof.
  assert (Hn : forall n, 0 <= n <= 2 ^ 53 -> to_binary64_nonneg n = of_Z n).
  { intros n Hn. unfold to_binary64_nonneg.
    destruct (Z.ltb_spec n (2 ^ 53)) as [_ | E]; [reflexivity |].
    replace n with (2 ^ 53) by lia. reflexivity. }
  intros Hz. unfold to_binary64.
  destruct (Z.ltb_spec z 0) as [E | E].
  - rewrite Hn by lia. rewrite num_neg_of_Z. f_equal. lia.
  - apply Hn. lia.
Qed.

(** What binary64 makes of a positive integer: a positive integer, the
    same one up to 2^53, or plus infinity. *)
Lemma to_binary64_positive (z : Z) :
  0 < z ->
  to_binary64 z = Infinity false \/ exists m, 0 < m /\ to_binary64 z = of_Z m.
Proof.
  intros Hz. destruct (Z.le_gt_cases z (2 ^ 53)) as [Hs | Hl].
  - right. exists z. split; [exact Hz |]. apply to_binary64_exact. lia.
  - unfold to_binary64. destruct (Z.ltb_spec z 0) as [E | _]; [lia |].
    destruct (to_binary64_nonneg_large z) as [-> | [m [Hm ->]]]; [lia | now left |].
    right. exists m. split; [| reflexivity].
    pose proof (Z.pow_pos_nonneg 2 53). lia.
Qed.

Lemma to_binary64_not_positive (z : Z) :
  z <= 0 -> num_gtb (to_binary64 z) (of_Z 0) = false.
Proof.
  intros Hz. destruct (Z.le_gt_cases (- z) (2 ^ 53)) as [Hs | Hl].
  - rewrite to_binary64_exact by lia. unfold num_gtb. rewrite num_ltb_of_Z.
    apply Z.ltb_ge. exact Hz.
  - unfold to_binary64.
    destruct (Z.ltb_spec z 0) as [_ | E]; [| pose proof (Z.pow_pos_nonneg 2 53); lia].
    destruct (to_binary64_nonneg_large (- z)) as [-> | [m [Hm ->]]];
      [lia | reflexivity |].
    rewrite num_neg_of_Z. unfold num_gtb. rewrite num_ltb_of_Z.
    apply Z.ltb_ge. pose proof (Z.pow_pos_nonneg 2 53). lia.
Qed.

Lemma to_binary64_kept (z : Z) :
  0 < z ->
  negb (isNaN (to_binary64 z)) && num_gtb (to_binary64 z) (of_Z 0) = true.
Proof.
  intros Hz. destruct (to_binary64_positive z Hz) as [-> | [m [Hm ->]]];
    [reflexivity |].
  unfold num_gtb. rewrite num_ltb_of_Z. simpl. apply Z.ltb_lt. exact Hm.
Qed.

Lemma num_gtb_to_binary64 (z : Z) :
  num_gtb (to_binary64 z) (of_Z 0) = (0 <? z).
Proof.
  destruct (Z.ltb_spec 0 z) as [E | E].
  - pose proof (to_binary64_kept z E) as H.
    apply andb_true_iff in H. apply H.
  - now apply to_binary64_not_positive.
Qed.

Lemma to_binary64_lower (z m : Z) :
  0 <= z -> to_binary64 z = of_Z m -> Z.min z (2 ^ 53) <= m.
Proof.
  intros Hz Hm. destruct (Z.le_gt_cases z (2 ^ 53)) as [Hs | Hl].
  - rewrite to_binary64_exact in Hm by lia. apply of_Z_inj in Hm. lia.
  - unfold to_binary64 in Hm.
    destruct (Z.ltb_spec z 0) as [E | _]; [lia |].
    destruct (to_binary64_nonneg_large z) as [E | [m' [Hm' E]]]; [lia | |];
      rewrite E in Hm; [discriminate |].
    apply of_Z_inj in Hm. lia.
Qed.

Lemma num_add_binary64 (a b : Z) :
  num_add (of_Z a) (of_Z b) = to_binary64 (a + b).
Proof.
  unfold num_add, of_Z, round_integer.
  replace (inject_Z a + inject_Z b)%Q with (inject_Z (a + b))
    by (unfold inject_Z, Qplus; simpl; now rewrite !Z.mul_1_r).
  cbv zeta. rewrite Qred_inject_Z. reflexivity.
Qed.

Lemma num_add_of_Z (a b : Z) :
  Z.abs (a + b) <= 2 ^ 53 -> num_add (of_Z a) (of_Z b) = of_Z (a + b).
Proof.
  intros H. rewrite num_add_binary64. now apply to_binary64_exact.
Qed.

Lemma num_sub_binary64 (a b : Z) :
  num_sub (of_Z a) (of_Z b) = to_binary64 (a - b).
Proof.
  unfold num_sub. rewrite num_neg_of_Z. apply num_add_binary64.
Qed.

Lemma num_sub_of_Z (a b : Z) :
  Z.abs (a - b) <= 2 ^ 53 -> num_sub (of_Z a) (of_Z b) = of_Z (a - b).
Proof.
  intros H. rewrite num_sub_binary64. now apply to_binary64_exact.
Qed.

Lemma array_get_of_Z {A : Type} (a : list A) (z : Z) :
  array_get a (of_Z z) = if 0 <=? z then nth_error a (Z.to_nat z) else None.
Proof. unfold array_get. now rewrite to_integer_of_Z. Qed.

(** ** Strings *)

Lemma split_not_nil (sep : ascii) (s : string) : split sep s <> [].
Proof.
  destruct s as [| c s]; simpl; [discriminate |].
  destruct (Ascii.eqb c sep); [discriminate |].
  destruct (split sep s); discriminate.
Qed.

Lemma join_split (sep : ascii) (s : string) : join sep (split sep s) = s.
Proof.
  induction s as [| c s IH]; simpl; [reflexivity |].
  pose proof (split_not_nil sep s) as Hn.
  destruct (split sep s) as [| t rest]; [congruence |].
  destruct (Ascii.eqb_spec c sep) as [-> | _].
  - change (join sep (EmptyString :: t :: rest)) with (String sep (join sep (t :: rest))).
    now rewrite IH.
  - destruct rest as [| t' rest].
    + simpl in *. now subst.
    + change (join sep (String c t :: t' :: rest))
        with (String c (t ++ String sep (join sep (t' :: rest)))).
      f_equal. exact IH.
Qed.

Lemma split_no_sep (sep : ascii) (s : string) :
  Forall (fun t => contains sep t = false) (split sep s).
Proof.
  induction s as [| c s IH]; simpl.
  - repeat constructor.
  - destruct (Ascii.eqb_spec c sep) as [-> | Hne].
    + constructor; [reflexivity | exact IH].
    + destruct (split sep s) as [| t rest].
      * constructor; [| constructor]. simpl.
        destruct (Ascii.eqb_spec c sep); [contradiction | reflexivity].
      * inversion IH; subst. constructor; [| assumption]. simpl.
        destruct (Ascii.eqb_spec c sep); [contradiction | assumption].
Qed.

(** ** Interval table *)

Lemma keep_parseInt10 (s : string) :
  (let n := parseInt10 (trim s) in negb (isNaN n) && num_gtb n (of_Z 0))
  = match survives s with Some _ => true | None => false end.
Proof.
  unfold parseInt10, survives. destruct (parse_integer (trim s)) as [z |].
  - cbv zeta. destruct (Z.ltb_spec 0 z) as [E | E].
    + now apply to_binary64_kept.
    + rewrite to_binary64_not_positive by exact E. apply andb_false_r.
  - reflexivity.
Qed.

Lemma survives_parseInt10 (s : string) (z : Z) :
  survives s = Some z -> parseInt10 (trim s) = to_binary64 z.
Proof.
  unfold parseInt10, survives. destruct (parse_integer (trim s)) as [v |].
  - destruct (0 <? v); congruence.
  - discriminate.
Qed.

Lemma survives_positive (s : string) (z : Z) : survives s = Some z -> 0 < z.
Proof.
  unfold survives. destruct (parse_integer (trim s)) as [v |]; [| discriminate].
  destruct (Z.ltb_spec 0 v); [| discriminate]. intros [= <-]. assumption.
Qed.

Lemma filter_map_tokens (tokens : list string) :
  filter (fun n => negb (isNaN n) && num_gtb n (of_Z 0))
         (map (fun s => parseInt10 (trim s)) tokens)
  = map to_binary64 (flat_map (fun token => match survives token with
                                            | Some z => [z]
                                            | None => []
                                            end) tokens).
Proof.
  induction tokens as [| t tokens IH]; simpl; [reflexivity |].
  rewrite map_app, <- IH.
  pose proof (keep_parseInt10 t) as Hk. simpl in Hk. rewrite Hk.
  destruct (survives t) as [z |] eqn:Hs; simpl; [| reflexivity].
  now rewrite (survives_parseInt10 _ _ Hs).
Qed.

Lemma parseIntervals_table (raw : string) :
  parseIntervals raw = map to_binary64 (table_of_tokens raw).
Proof. apply filter_map_tokens. Qed.

Lemma table_of_tokens_positive (raw : string) :
  Forall (fun z => 0 < z) (table_of_tokens raw).
Proof.
  unfold table_of_tokens. induction (split "," raw) as [| t l IH]; simpl.
  - constructor.
  - destruct (survives t) as [z |] eqn:Hs; simpl; [| exact IH].
    constructor; [exact (survives_positive _ _ Hs) | exact IH].
Qed.

Lemma table_of_tokens_nil (raw : string) :
  table_of_tokens raw = [] <->
  Forall (fun token => survives token = None) (split "," raw).
Proof.
  unfold table_of_tokens. induction (split "," raw) as [| t l IH]; simpl.
  - split; [constructor | reflexivity].
  - destruct (survives t) as [z |] eqn:Hs; simpl.
    + split; [discriminate |]. intros H. inversion H; congruence.
    + rewrite IH. split.
      * intros H. now constructor.
      * intros H. now inversion H.
Qed.

Lemma parseIntervals_entries (raw : string) :
  Forall (fun n => n = Infinity false \/ exists z, n = of_Z z /\ 0 < z)
         (parseIntervals raw).
Proof.
  rewrite parseIntervals_table. apply Forall_map.
  eapply Forall_impl; [| apply table_of_tokens_positive].
  intros z Hz. cbv beta in Hz.
  destruct (to_binary64_positive z Hz) as [-> | [m [Hm ->]]];
    [now left | right; now exists m].
Qed.

(** C9, refuted as stated: the entries are binary64 numbers, not the
    integers read. The token 9007199254740993 (2^53 + 1) survives and
    gives the entry 9007199254740992, and a token of 310 digits gives
    plus infinity, which is no integer. *)
Lemma parseIntervals_contract_counterexample :
  table_of_tokens "9007199254740993" = [9007199254740993] /\
  parseIntervals "9007199254740993" = [of_Z 9007199254740992] /\
  parseIntervals "9007199254740993"
  <> map of_Z (table_of_tokens "9007199254740993") /\
  parseIntervals "1000000000000000000000000000000000000000000000000000000000000000000000000000000000000000000000000000000000000000000000000000000000000000000000000000000000000000000000000000000000000000000000000000000000000000000000000000000000000000000000000000000000000000000000000000000000000000000000000000000000000000000000" = [Infinity false] /\
  ~ Forall (fun n => exists z, n = of_Z z /\ 0 < z) (parseIntervals "1000000000000000000000000000000000000000000000000000000000000000000000000000000000000000000000000000000000000000000000000000000000000000000000000000000000000000000000000000000000000000000000000000000000000000000000000000000000000000000000000000000000000000000000000000000000000000000000000000000000000000000000").
Proof.
  assert (Hbig : parseIntervals "1000000000000000000000000000000000000000000000000000000000000000000000000000000000000000000000000000000000000000000000000000000000000000000000000000000000000000000000000000000000000000000000000000000000000000000000000000000000000000000000000000000000000000000000000000000000000000000000000000000000000000000000" = [Infinity false])
    by (vm_compute; reflexivity).
  split; [vm_compute; reflexivity |].
  split; [vm_compute; reflexivity |].
  split; [vm_compute; discriminate |].
  split; [exact Hbig |].
  rewrite Hbig. intros H. inversion H as [| n l [z [Hz _]] _]; subst.
  discriminate Hz.
Qed.

(** C9, amended. [parseIntervals] is a total function of its input. The
    tokens it works on are the pieces of the input between its commas. A
    token survives when, trimmed, it reads as an integer above zero. The
    result is the sequence, in token order, of the binary64 numbers of the
    integers read from the surviving tokens: the integer itself when it is
    at most 2^53, in every case a positive integer or plus infinity. The
    result is empty exactly when no token survives. *)
Theorem parseIntervals_contract (raw : string) :
  join "," (split "," raw) = raw /\
  Forall (fun token => contains "," token = false) (split "," raw) /\
  parseIntervals raw = map to_binary64 (table_of_tokens raw) /\
  Forall (fun z => 0 < z) (table_of_tokens raw) /\
  (Forall (fun z => z <= 2 ^ 53) (table_of_tokens raw) ->
   parseIntervals raw = map of_Z (table_of_tokens raw)) /\
  Forall (fun n => n = Infinity false \/ exists z, n = of_Z z /\ 0 < z)
         (parseIntervals raw) /\
  (parseIntervals raw = [] <->
   Forall (fun token => survives token = None) (split "," raw)).
Proof.
  split; [apply join_split |].
  split; [apply split_no_sep |].
  split; [apply parseIntervals_table |].
  split; [apply table_of_tokens_positive |].
  split; [| split].
  - intros Hs. rewrite parseIntervals_table. apply map_ext_in.
    intros z Hz. apply to_binary64_exact.
    pose proof (proj1 (Forall_forall _ _) Hs z Hz) as H1.
    pose proof (proj1 (Forall_forall _ _) (table_of_tokens_positive raw) z Hz)
      as H2.
    cbv beta in H1, H2. lia.
  - apply parseIntervals_entries.
  - rewrite parseIntervals_table, <- table_of_tokens_nil.
    destruct (table_of_tokens raw); simpl; split; congruence.
Qed.

Lemma parseIntervals_contract_witness :
  parseIntervals " 3 ,x, -2,0 ,12abc" = [of_Z 3; of_Z 12] /\
  (parseIntervals "a, ,-1" = [] <->
   Forall (fun token => survives token = None) (split "," "a, ,-1")).
Proof.
  split.
  - apply (proj1 (proj2 (proj2 (proj2 (proj2
             (parseIntervals_contract " 3 ,x, -2,0 ,12abc")))))).
    replace (table_of_tokens " 3 ,x, -2,0 ,12abc") with [3; 12]
      by (vm_compute; reflexivity).
    constructor; [| constructor; [| constructor]]; apply Z.leb_le; reflexivity.
  - exact (proj2 (proj2 (proj2 (proj2 (proj2 (proj2
             (parseIntervals_contract "a, ,-1"))))))).
Defined.

Lemma getInterval_empty (level : number) : getInterval [] level = Some (of_Z 1).
Proof. reflexivity. Qed.

Lemma getInterval_nonempty (tbl : list number) (level : number) :
  tbl <> [] ->
  getInterval tbl level =
  if num_ltb level (of_nat (List.length tbl)) then array_get tbl level
  else nth_error tbl (List.length tbl - 1).
Proof.
  intros Hne. unfold getInterval.
  destruct tbl as [| x tbl]; [congruence |].
  change (List.length (x :: tbl) =? 0)%nat with false. cbv iota.
  destruct (num_ltb level (of_nat (List.length (x :: tbl)))); [reflexivity |].
  unfold of_nat. rewrite array_get_of_Z.
  destruct (Z.leb_spec 0 (Z.of_nat (List.length (x :: tbl) - 1))); [| lia].
  now rewrite Nat2Z.id.
Qed.

Lemma getInterval_in_bounds (tbl : list number) (z : Z) :
  0 <= z < Z.of_nat (List.length tbl) ->
  getInterval tbl (of_Z z) = nth_error tbl (Z.to_nat z).
Proof.
  intros Hz. rewrite getInterval_nonempty.
  - unfold of_nat. rewrite num_ltb_of_Z, array_get_of_Z.
    destruct (Z.ltb_spec z (Z.of_nat (List.length tbl))); [| lia].
    destruct (Z.leb_spec 0 z); [reflexivity | lia].
  - intros ->. simpl in Hz. lia.
Qed.

Lemma getInterval_clamped (tbl : list number) (z : Z) :
  tbl <> [] -> Z.of_nat (List.length tbl) <= z ->
  getInterval tbl (of_Z z) = nth_error tbl (List.length tbl - 1).
Proof.
  intros Hne Hz. rewrite getInterval_nonempty by assumption.
  unfold of_nat. rewrite num_ltb_of_Z.
  destruct (Z.ltb_spec z (Z.of_nat (List.length tbl))); [lia | reflexivity].
Qed.

Lemma getInterval_negative (tbl : list number) (z : Z) :
  tbl <> [] -> z < 0 -> getInterval tbl (of_Z z) = None.
Proof.
  intros Hne Hz. rewrite getInterval_nonempty by assumption.
  unfold of_nat. rewrite num_ltb_of_Z, array_get_of_Z.
  destruct (Z.ltb_spec z (Z.of_nat (List.length tbl))); [| lia].
  destruct (Z.leb_spec 0 z); [lia | reflexivity].
Qed.

Lemma getInterval_NaN (tbl : list number) :
  tbl <> [] -> getInterval tbl NaN = nth_error tbl (List.length tbl - 1).
Proof. intros Hne. now rewrite getInterval_nonempty. Qed.

Lemma nth_error_last {A : Type} (l : list A) (d : A) :
  l <> [] -> nth_error l (List.length l - 1) = Some (last l d).
Proof.
  induction l as [| x l IH]; [congruence |]. intros _.
  destruct l as [| y l]; [reflexivity |].
  change (last (x :: y :: l) d) with (last (y :: l) d).
  rewrite <- IH by discriminate. simpl. now rewrite Nat.sub_0_r.
Qed.

(** The answer at a level that is a non-negative integer: the entry at
    the level, at the last index from the length of the table on, and 1 on
    the empty table. *)
Lemma getInterval_nth (tbl : list number) (z : Z) :
  0 <= z ->
  getInterval tbl (of_Z z)
  = Some (nth (Z.to_nat (Z.min z (Z.of_nat (List.length tbl) - 1))) tbl
            (of_Z 1)).
Proof.
  intros Hz. destruct tbl as [| x tbl].
  - rewrite getInterval_empty. now destruct (Z.to_nat _).
  - set (l := x :: tbl).
    assert (Hne : l <> []) by discriminate.
    assert (Hlen : 0 < Z.of_nat (List.length l)) by (simpl; lia).
    destruct (Z.lt_ge_cases z (Z.of_nat (List.length l))) as [Hlt | Hge].
    + rewrite getInterval_in_bounds by lia.
      rewrite Z.min_l by lia. apply nth_error_nth'. lia.
    + rewrite getInterval_clamped by assumption.
      rewrite Z.min_r by lia.
      replace (Z.to_nat (Z.of_nat (List.length l) - 1))
        with (List.length l - 1)%nat by lia.
      apply nth_error_nth'. simpl. lia.
Qed.

(** C2. On the empty table [getInterval] answers 1 at every level. On a
    table of length L > 0 it answers the entry at index [level] when
    0 <= level < L and the last entry, the one at index L - 1, at every
    level from L on, however large. On the table read from
    ["1, 6, 9, 19, 75"] it answers 1 at level 0, 19 at level 3 and 75 at
    level 10. *)
Theorem getInterval_lookup :
  (forall level, getInterval [] level = Some (of_Z 1)) /\
  (forall tbl z,
      0 <= z < Z.of_nat (List.length tbl) ->
      exists x, nth_error tbl (Z.to_nat z) = Some x /\
                getInterval tbl (of_Z z) = Some x) /\
  (forall tbl z,
      tbl <> [] -> Z.of_nat (List.length tbl) <= z ->
      nth_error tbl (List.length tbl - 1) = Some (last tbl NaN) /\
      getInterval tbl (of_Z z) = Some (last tbl NaN)) /\
  (let table := parseIntervals "1, 6, 9, 19, 75" in
   getInterval table (of_Z 0) = Some (of_Z 1) /\
   getInterval table (of_Z 3) = Some (of_Z 19) /\
   getInterval table (of_Z 10) = Some (of_Z 75)).
Proof.
  split; [exact getInterval_empty |].
  split; [| split].
  - intros tbl z Hz. rewrite getInterval_in_bounds by assumption.
    destruct (nth_error tbl (Z.to_nat z)) as [x |] eqn:Hx.
    + now exists x.
    + apply nth_error_None in Hx. lia.
  - intros tbl z Hne Hz. rewrite getInterval_clamped by assumption.
    split; now apply nth_error_last.
  - repeat split.
Qed.

Lemma getInterval_lookup_witness :
  (exists x, nth_error [of_Z 4; of_Z 8] (Z.to_nat 1) = Some x /\
             getInterval [of_Z 4; of_Z 8] (of_Z 1) = Some x) /\
  getInterval [of_Z 4; of_Z 8] (of_Z 1000) = Some (of_Z 8).
Proof.
  split.
  - apply (proj1 (proj2 getInterval_lookup) [of_Z 4; of_Z 8] 1).
    simpl. lia.
  - apply (proj1 (proj2 (proj2 getInterval_lookup)) [of_Z 4; of_Z 8] 1000).
    + discriminate.
    + simpl. lia.
Defined.

(** C10. On a non-empty table [getInterval] answers an entry of the table
    at every level that is a non-negative integer; at every negative
    integer level the test against the length passes, the index is out of
    bounds and the answer is [undefined], which is no entry of the
    table. *)
Theorem getInterval_needs_nonnegative_level (tbl : list number) :
  tbl <> [] ->
  (forall z, 0 <= z -> exists x, getInterval tbl (of_Z z) = Some x /\ In x tbl) /\
  (forall z, z < 0 -> getInterval tbl (of_Z z) = None).
Proof.
  intros Hne. split.
  - intros z Hz.
    destruct (Z.lt_ge_cases z (Z.of_nat (List.length tbl))) as [Hlt | Hge].
    + rewrite getInterval_in_bounds by lia.
      destruct (nth_error tbl (Z.to_nat z)) as [x |] eqn:Hx.
      * exists x. split; [reflexivity |]. eapply nth_error_In, Hx.
      * apply nth_error_None in Hx. lia.
    + rewrite getInterval_clamped by assumption.
      rewrite (nth_error_last tbl NaN) by assumption.
      exists (last tbl NaN). split; [reflexivity |].
      destruct tbl as [| x tbl]; [congruence |].
      apply exists_last in Hne. destruct Hne as [l' [a Heq]].
      rewrite Heq, last_last. apply in_or_app. right. now left.
  - intros z Hz. now apply getInterval_negative.
Qed.

Lemma getInterval_needs_nonnegative_level_witness :
  (exists x, getInterval (parseIntervals "1, 6, 9, 19, 75") (of_Z 2) = Some x /\
             In x (parseIntervals "1, 6, 9, 19, 75")) /\
  getInterval (parseIntervals "1, 6, 9, 19, 75") (of_Z (-1)) = None.
Proof.
  assert (Hne : parseIntervals "1, 6, 9, 19, 75" <> []) by discriminate.
  split.
  - apply (proj1 (getInterval_needs_nonnegative_level _ Hne) 2). lia.
  - apply (proj2 (getInterval_needs_nonnegative_level _ Hne) (-1)). lia.
Defined.

(** ** Buckets *)

Section FourWay.
Context {A : Type} (p1 p2 p3 p4 : A -> bool).
Hypothesis one_of_four :
  forall x, match p1 x, p2 x, p3 x, p4 x with
            | true, false, false, false
            | false, true, false, false
            | false, false, true, false
            | false, false, false, true => True
            | _, _, _, _ => False
            end.

Lemma four_filters_Permutation (l : list A) :
  Permutation l (filter p1 l ++ filter p2 l ++ filter p3 l ++ filter p4 l).
Proof.
  induction l as [| x l IH]; simpl; [constructor |].
  pose proof (one_of_four x) as Hx.
  destruct (p1 x), (p2 x), (p3 x), (p4 x); try contradiction.
  - simpl. now constructor.
  - now apply Permutation_cons_app.
  - rewrite app_assoc. apply Permutation_cons_app. now rewrite <- app_assoc.
  - rewrite 2 app_assoc. apply Permutation_cons_app.
    now rewrite <- 2 app_assoc.
Qed.
End FourWay.

Lemma bucketize_step_filters (th : Z) (notes : list ReviewNote) :
  0 <= th -> Forall whole_days notes ->
  forall b,
    fold_left (bucketize_step (of_Z th)) notes b =
    {| overdue := overdue b ++ filter (fun n => days n <? 0) notes;
       today := today b ++ filter (fun n => days n =? 0) notes;
       upcoming := upcoming b
                   ++ filter (fun n => (0 <? days n) && (days n <=? th)) notes;
       later := later b ++ filter (fun n => th <? days n) notes |}.
Proof.
  intros Hth Hall. induction Hall as [| n notes Hn _ IH]; intros b.
  - simpl. rewrite !app_nil_r. now destruct b.
  - simpl fold_left. rewrite IH. unfold bucketize_step.
    rewrite Hn, num_ltb_of_Z, num_eqb_of_Z, num_leb_of_Z. simpl filter.
    destruct (Z.ltb_spec (days n) 0), (Z.eqb_spec (days n) 0),
      (Z.leb_spec (days n) th), (Z.ltb_spec 0 (days n)),
      (Z.ltb_spec th (days n)); try lia; simpl;
      rewrite <- ?app_assoc; reflexivity.
Qed.

(** C1. For a threshold that is a non-negative integer and notes whose day
    counts are integers, each bucket of [bucketize] is the notes of the
    input, in input order, that meet its condition on the day count:
    below 0 for [overdue], 0 for [today], above 0 and up to the threshold
    for [upcoming], above the threshold for [later]. A note of the input
    is in exactly one bucket, the four buckets together are a
    rearrangement of the input and their sizes add up to its size. With
    threshold 7 a note at 7 days is in [upcoming] and a note at 8 days is
    in [later]. *)
Theorem bucketize_partition (settings : ReviewReminderSettings)
    (notes : list ReviewNote) (th : Z) :
  0 <= th -> upcomingDays settings = of_Z th -> Forall whole_days notes ->
  let b := bucketize settings notes in
  overdue b = filter (fun n => days n <? 0) notes /\
  today b = filter (fun n => days n =? 0) notes /\
  upcoming b = filter (fun n => (0 <? days n) && (days n <=? th)) notes /\
  later b = filter (fun n => th <? days n) notes /\
  (forall n, In n notes ->
     (In n (overdue b) /\ ~ In n (today b) /\ ~ In n (upcoming b) /\ ~ In n (later b)) \/
     (~ In n (overdue b) /\ In n (today b) /\ ~ In n (upcoming b) /\ ~ In n (later b)) \/
     (~ In n (overdue b) /\ ~ In n (today b) /\ In n (upcoming b) /\ ~ In n (later b)) \/
     (~ In n (overdue b) /\ ~ In n (today b) /\ ~ In n (upcoming b) /\ In n (later b))) /\
  Permutation notes (overdue b ++ today b ++ upcoming b ++ later b) /\
  (List.length (overdue b) + List.length (today b)
   + List.length (upcoming b) + List.length (later b) = List.length notes)%nat /\
  (th = 7 -> forall n, In n notes ->
     (days n = 7 -> In n (upcoming b)) /\ (days n = 8 -> In n (later b))).
Proof.
  intros Hth Hup Hall b.
  assert (Hb : b = {| overdue := filter (fun n => days n <? 0) notes;
                      today := filter (fun n => days n =? 0) notes;
                      upcoming := filter (fun n => (0 <? days n) && (days n <=? th)) notes;
                      later := filter (fun n => th <? days n) notes |}).
  { unfold b, bucketize. rewrite Hup.
    now rewrite bucketize_step_filters by assumption. }
  assert (Hperm : Permutation notes (overdue b ++ today b ++ upcoming b ++ later b)).
  { rewrite Hb. simpl. apply four_filters_Permutation. intros x.
    destruct (Z.ltb_spec (days x) 0), (Z.eqb_spec (days x) 0),
      (Z.leb_spec (days x) th), (Z.ltb_spec 0 (days x)),
      (Z.ltb_spec th (days x)); simpl; trivial; lia. }
  rewrite Hb in *. simpl in *.
  repeat split; try reflexivity.
  - intros n Hn. rewrite !filter_In.
    destruct (Z.ltb_spec (days n) 0), (Z.eqb_spec (days n) 0),
      (Z.leb_spec (days n) th), (Z.ltb_spec 0 (days n)),
      (Z.ltb_spec th (days n)); try lia; simpl; intuition congruence.
  - exact Hperm.
  - apply Permutation_length in Hperm. rewrite !length_app in Hperm. lia.
  - intros Hd. apply filter_In. split; [assumption |]. subst th. now rewrite Hd.
  - intros Hd. apply filter_In. split; [assumption |]. subst th. now rewrite Hd.
Qed.

Lemma bucketize_partition_witness :
  let notes := map sample_note [8; -3; 7; 0; 7] in
  upcoming (bucketize DEFAULT_SETTINGS notes)
  = filter (fun n => (0 <? days n) && (days n <=? 7)) notes.
Proof.
  intros notes.
  refine (proj1 (proj2 (proj2
            (bucketize_partition DEFAULT_SETTINGS notes 7 _ _ _)))).
  - lia.
  - reflexivity.
  - repeat constructor.
Defined.

(** ** Sorting *)

Section StableSort.
Context {A : Type} (cmp : A -> A -> number) (key : A -> Z) (P : A -> Prop).
Hypothesis cmp_key :
  forall x y, P x -> P y -> num_gtb (cmp x y) (of_Z 0) = (key y <? key x).

Lemma sort_insert_Permutation (x : A) (l : list A) :
  Permutation (sort_insert cmp x l) (x :: l).
Proof.
  induction l as [| y l IH]; cbn [sort_insert]; [reflexivity |].
  destruct (num_gtb (cmp x y) (of_Z 0)); [| reflexivity].
  rewrite IH. apply perm_swap.
Qed.

Lemma Array_sort_Permutation (l : list A) : Permutation (Array_sort cmp l) l.
Proof.
  induction l as [| x l IH]; [reflexivity |].
  change (Array_sort cmp (x :: l)) with (sort_insert cmp x (Array_sort cmp l)).
  rewrite sort_insert_Permutation. now constructor.
Qed.

Lemma Array_sort_Forall (Q : A -> Prop) (l : list A) :
  Forall Q l -> Forall Q (Array_sort cmp l).
Proof.
  intros H. eapply Permutation_Forall; [| exact H].
  symmetry. apply Array_sort_Permutation.
Qed.

Lemma sort_insert_sorted (x : A) (l : list A) :
  P x -> Forall P l ->
  StronglySorted (fun a b => key a <= key b) l ->
  StronglySorted (fun a b => key a <= key b) (sort_insert cmp x l).
Proof.
  intros Hx Hl Hs. induction Hs as [| y l Hs IH Hy]; cbn [sort_insert].
  - repeat constructor.
  - inversion Hl as [| ? ? Py Pl]; subst.
    rewrite (cmp_key x y Hx Py).
    destruct (Z.ltb_spec (key y) (key x)) as [Hlt | Hge].
    + constructor; [now apply IH |].
      eapply Permutation_Forall;
        [symmetry; apply sort_insert_Permutation |].
      constructor; [lia | assumption].
    + constructor; [now constructor |].
      constructor; [assumption |].
      eapply Forall_impl; [| exact Hy]. simpl. intros; lia.
Qed.

Lemma Array_sort_sorted (l : list A) :
  Forall P l -> StronglySorted (fun a b => key a <= key b) (Array_sort cmp l).
Proof.
  induction 1 as [| x l Hx Hl IH]; [constructor |].
  change (Array_sort cmp (x :: l)) with (sort_insert cmp x (Array_sort cmp l)).
  apply sort_insert_sorted; [assumption | now apply Array_sort_Forall | exact IH].
Qed.

Lemma sort_insert_filter (k : Z) (x : A) (l : list A) :
  P x -> Forall P l ->
  filter (fun a => key a =? k) (sort_insert cmp x l)
  = filter (fun a => key a =? k) (x :: l).
Proof.
  intros Hx Hl. induction Hl as [| y l Py Pl IH]; [reflexivity |].
  cbn [sort_insert]. rewrite (cmp_key x y Hx Py).
  destruct (Z.ltb_spec (key y) (key x)) as [Hlt | Hge]; [| reflexivity].
  simpl filter in *. rewrite IH.
  destruct (Z.eqb_spec (key x) k), (Z.eqb_spec (key y) k);
    try reflexivity; lia.
Qed.

Lemma Array_sort_filter (k : Z) (l : list A) :
  Forall P l ->
  filter (fun a => key a =? k) (Array_sort cmp l)
  = filter (fun a => key a =? k) l.
Proof.
  induction 1 as [| x l Hx Hl IH]; [reflexivity |].
  change (Array_sort cmp (x :: l)) with (sort_insert cmp x (Array_sort cmp l)).
  rewrite sort_insert_filter;
    [| assumption | now apply Array_sort_Forall].
  cbn [filter]. now rewrite IH.
Qed.
End StableSort.

Lemma daysUntil_cmp (a b : ReviewNote) :
  whole_days a -> whole_days b ->
  num_gtb (num_sub (daysUntil a) (daysUntil b)) (of_Z 0) = (days b <? days a).
Proof.
  intros Ha Hb. rewrite Ha, Hb, num_sub_binary64, num_gtb_to_binary64.
  destruct (Z.ltb_spec 0 (days a - days b)), (Z.ltb_spec (days b) (days a));
    try reflexivity; lia.
Qed.

(** ** Scan *)

Lemma finite_trunc_of_Z (z : Z) : finite_trunc (of_Z z) = Some z.
Proof. unfold finite_trunc, of_Z. simpl. now rewrite Z.quot_1_r. Qed.

Lemma stripTime_Some (h : Host) (t : Z) :
  exists t', stripTime h (Some t) = Some t'.
Proof.
  unfold stripTime, Date_of_components, getFullYear, getMonth, getDate.
  rewrite !finite_trunc_of_Z. eauto.
Qed.

Lemma stripTime_None (h : Host) : stripTime h None = None.
Proof. reflexivity. Qed.

Lemma get_absent (fm : list (string * value)) (key : string) :
  (forall v, ~ In (key, v) fm) -> get fm key = VUndefined.
Proof.
  induction fm as [| [k v] fm IH]; intros Hno; simpl; [reflexivity |].
  destruct (String.eqb_spec k key) as [-> | Hne].
  - exfalso. apply (Hno v). now left.
  - apply IH. intros w Hw. apply (Hno w). now right.
Qed.

Lemma scan_file_dated (h : Host) (settings : ReviewReminderSettings)
    (today : Date) (file : TFile) (fm : list (string * value))
    (s : string) (t : Z) :
  ToBoolean (get fm (dateProperty settings)) = true ->
  ToString h (get fm (dateProperty settings)) = Normal s ->
  Date_of_string h s = Some t ->
  scan_file h settings today file (Some fm) =
  bind (ToNumber h (nullish (get fm (freqProperty settings)) (VNumber (of_Z 0))))
    (fun level =>
       bind (map_String h (nullish (get fm "tags") (VArray [])))
         (fun tags =>
            Normal (Some {| file := file;
                            title := basename file;
                            reviewNext := stripTime h (Some t);
                            reviewFreq := level;
                            tags := tags;
                            daysUntil :=
                              daysBetween today (stripTime h (Some t)) |}))).
Proof.
  intros Hraw Hs Hdate. unfold scan_file. rewrite Hraw, Hs. cbn [negb bind].
  rewrite Hdate. destruct (stripTime_Some h t) as [t' ->]. reflexivity.
Qed.

Lemma scan_file_undated (h : Host) (settings : ReviewReminderSettings)
    (today : Date) (file : TFile) (fm : list (string * value)) :
  ToBoolean (get fm (dateProperty settings)) = false \/
  (exists s, ToString h (get fm (dateProperty settings)) = Normal s /\
             Date_of_string h s = None) ->
  scan_file h settings today file (Some fm) = Normal None.
Proof.
  intros [Hraw | [s [Hs Hdate]]]; unfold scan_file.
  - now rewrite Hraw.
  - rewrite Hs. cbn [bind]. rewrite Hdate, stripTime_None.
    now destruct (negb (ToBoolean (get fm (dateProperty settings)))).
Qed.

(** What a turn of the loop that pushes a note has gone through. *)
Lemma scan_file_pushed (h : Host) (settings : ReviewReminderSettings)
    (today : Date) (file : TFile) (fm : list (string * value)) (n : ReviewNote) :
  scan_file h settings today file (Some fm) = Normal (Some n) ->
  exists s t level tgs,
    ToBoolean (get fm (dateProperty settings)) = true /\
    ToString h (get fm (dateProperty settings)) = Normal s /\
    stripTime h (Date_of_string h s) = Some t /\
    ToNumber h (nullish (get fm (freqProperty settings)) (VNumber (of_Z 0)))
    = Normal level /\
    map_String h (nullish (get fm "tags") (VArray [])) = Normal tgs /\
    n = {| file := file;
           title := basename file;
           reviewNext := Some t;
           reviewFreq := level;
           tags := tgs;
           daysUntil := daysBetween today (Some t) |}.
Proof.
  unfold scan_file.
  destruct (ToBoolean (get fm (dateProperty settings))); [| discriminate].
  cbn [negb].
  destruct (ToString h (get fm (dateProperty settings))) as [s | e];
    [| discriminate].
  cbn [bind].
  destruct (stripTime h (Date_of_string h s)) as [t |] eqn:Ht; [| discriminate].
  destruct (ToNumber h _) as [level | e]; [| discriminate]. cbn [bind].
  destruct (map_String h _) as [tgs | e]; [| discriminate]. cbn [bind].
  intros [= <-]. exists s, t, level, tgs. repeat split. exact Ht.
Qed.

Lemma scan_file_whole_days (h : Host) (settings : ReviewReminderSettings)
    (t0 : Z) (file : TFile) (cache : option (list (string * value)))
    (n : ReviewNote) :
  scan_file h settings (Some t0) file cache = Normal (Some n) -> whole_days n.
Proof.
  destruct cache as [fm |]; [| discriminate]. intros H.
  destruct (scan_file_pushed _ _ _ _ _ _ H)
    as [s [t [level [tgs [_ [_ [_ [_ [_ ->]]]]]]]]].
  unfold whole_days, days, daysBetween.
  cbn [daysUntil]. now rewrite to_integer_of_Z.
Qed.

Lemma scan_loop_encountered (h : Host) (settings : ReviewReminderSettings)
    (today : Date) (files : Vault) :
  forall acc notes,
    scan_loop h settings today files acc = Normal notes ->
    notes = acc ++ encountered h settings today files.
Proof.
  induction files as [| [file cache] files IH]; intros acc notes; simpl.
  - intros [= <-]. now rewrite app_nil_r.
  - destruct (scan_file h settings today file cache) as [[n |] | e]; cbn [bind].
    + intros H. apply IH in H. now rewrite <- app_assoc in H.
    + apply IH.
    + discriminate.
Qed.

Lemma scan_loop_returns (h : Host) (settings : ReviewReminderSettings)
    (today : Date) (files : Vault) :
  (forall file cache, In (file, cache) files ->
     exists r, scan_file h settings today file cache = Normal r) ->
  forall acc, exists notes, scan_loop h settings today files acc = Normal notes.
Proof.
  induction files as [| [file cache] files IH]; intros Hall acc; simpl.
  - eauto.
  - destruct (Hall file cache (or_introl eq_refl)) as [r ->]. cbn [bind].
    apply IH. intros f c Hin. apply Hall. now right.
Qed.

Lemma scan_loop_skip (h : Host) (settings : ReviewReminderSettings)
    (today : Date) (file : TFile) (cache : option (list (string * value)))
    (pre post : Vault) :
  scan_file h settings today file cache = Normal None ->
  forall acc,
    scan_loop h settings today (pre ++ (file, cache) :: post) acc
    = scan_loop h settings today (pre ++ post) acc.
Proof.
  intros Hskip. induction pre as [| [f c] pre IH]; intros acc; simpl.
  - now rewrite Hskip.
  - destruct (scan_file h settings today f c) as [r | e]; cbn [bind];
      [apply IH | reflexivity].
Qed.

Lemma encountered_whole_days (h : Host) (settings : ReviewReminderSettings)
    (t0 : Z) (files : Vault) :
  Forall whole_days (encountered h settings (Some t0) files).
Proof.
  unfold encountered. induction files as [| [file cache] files IH]; simpl.
  - constructor.
  - destruct (scan_file h settings (Some t0) file cache) as [[n |] | e] eqn:Hn;
      simpl; try exact IH.
    constructor; [| exact IH]. eapply scan_file_whole_days, Hn.
Qed.

Lemma scan_file_no_string (h : Host) (settings : ReviewReminderSettings)
    (today : Date) (file : TFile) (fm : list (string * value)) :
  ToBoolean (get fm (dateProperty settings)) = true ->
  ToString h (get fm (dateProperty settings)) = Throw TypeError ->
  scan_file h settings today file (Some fm) = Throw TypeError.
Proof.
  intros Hraw Hs. unfold scan_file. now rewrite Hraw, Hs.
Qed.

(** C7. With a date property that is not the name of a member every
    object inherits: a file whose frontmatter has no date field, or has it
    [null] or empty, or has a value whose string the date parser of the
    host does not accept (as ["not-a-date"], which it rejects), is passed
    over by the scan: the turn of the loop ends in [continue] without an
    exception, and the scan of a vault that holds the file is the scan of
    the vault without it. That holds only where the value has a string: on
    a date field that holds an object with a property [toString] (or an
    array with such an element) [String(raw)] throws a [TypeError], and
    the scan of a vault that begins with the file ends with it. *)
Theorem scan_skips_undated (h : Host) (settings : ReviewReminderSettings)
    (file : TFile) (fm : list (string * value)) :
  inherited_name (dateProperty settings) = false ->
  let raw := get fm (dateProperty settings) in
  ((forall v, ~ In (dateProperty settings, v) fm) -> raw = VUndefined) /\
  (raw = VUndefined \/ raw = VNull \/ raw = VString EmptyString \/
   (exists s, ToString h raw = Normal s /\ Date_of_string h s = None) \/
   (raw = VString "not-a-date" /\ Date_parse_other h "not-a-date" = None) ->
   (forall today, scan_file h settings today file (Some fm) = Normal None) /\
   (forall now pre post,
      scanVault h settings now (pre ++ (file, Some fm) :: post)
      = scanVault h settings now (pre ++ post))) /\
  ((exists properties,
      raw = VObject properties /\ has_own properties "toString" = true) ->
   ToString h raw = Throw TypeError /\
   (forall today, scan_file h settings today file (Some fm) = Throw TypeError) /\
   (forall now post,
      scanVault h settings now ((file, Some fm) :: post) = Throw TypeError)).
Proof.
  intros _ raw. split; [apply get_absent |]. split.
  - intros Hraw.
    assert (Hskip : forall today,
               scan_file h settings today file (Some fm) = Normal None).
    { intros today. apply scan_file_undated. fold raw.
      destruct Hraw as [-> | [-> | [-> | [Hd | [-> Hd]]]]]; auto.
      right. exists "not-a-date". split; [reflexivity | exact Hd]. }
    split; [exact Hskip |].
    intros now pre post. unfold scanVault. now rewrite scan_loop_skip.
  - intros [properties [Hraw Hown]].
    assert (Hs : ToString h raw = Throw TypeError).
    { rewrite Hraw. cbn [ToString]. now rewrite Hown. }
    assert (Hthrow : forall today,
               scan_file h settings today file (Some fm) = Throw TypeError).
    { intros today. apply scan_file_no_string; fold raw; [| exact Hs].
      now rewrite Hraw. }
    split; [exact Hs |]. split; [exact Hthrow |].
    intros now post. unfold scanVault. cbn [scan_loop].
    now rewrite Hthrow.
Qed.

Lemma scan_skips_undated_witness :
  scan_file (sample_host 0) DEFAULT_SETTINGS None sample_file
    (Some [("review_next", VString "not-a-date")]) = Normal None /\
  scan_file (sample_host 0) DEFAULT_SETTINGS None sample_file
    (Some [("title", VString "x")]) = Normal None /\
  scanVault (sample_host 0) DEFAULT_SETTINGS 1740805200123
    [(sample_file,
      Some [("review_next", VObject [("toString", VString "x")])])]
  = Throw TypeError.
Proof.
  split; [| split].
  - apply (proj1 (proj2 (scan_skips_undated (sample_host 0) DEFAULT_SETTINGS
                           sample_file [("review_next", VString "not-a-date")]
                           eq_refl))).
    right. right. right. right. split; reflexivity.
  - apply (proj1 (proj2 (scan_skips_undated (sample_host 0) DEFAULT_SETTINGS
                           sample_file [("title", VString "x")] eq_refl))).
    left.
    apply (proj1 (scan_skips_undated (sample_host 0) DEFAULT_SETTINGS sample_file
                    [("title", VString "x")] eq_refl)).
    intros v [H | []]. discriminate.
  - apply (proj2 (proj2 (scan_skips_undated (sample_host 0) DEFAULT_SETTINGS
                           sample_file
                           [("review_next",
                             VObject [("toString", VString "x")])]
                           eq_refl))).
    exists [("toString", VString "x")]. split; reflexivity.
Defined.

(** C8. When a scan returns, its list is the notes it pushed, in the order
    it met their files, put in ascending order of day count by a stable
    sort: the day counts are integers and never decrease along the list,
    the list is a rearrangement of the pushed notes, and the notes of
    every one day count stand in the order in which they were pushed. A
    scan returns whenever no turn of its loop throws, and scanning the
    same vault at the same clock reading gives the same result. *)
Theorem scanVault_sorted_stable (h : Host) (settings : ReviewReminderSettings)
    (now : Z) (files : Vault) :
  let today := stripTime h (Some now) in
  (forall notes,
     scanVault h settings now files = Normal notes ->
     let pushed := encountered h settings today files in
     scan_loop h settings today files [] = Normal pushed /\
     Forall whole_days notes /\
     StronglySorted (fun a b => days a <= days b) notes /\
     Permutation notes pushed /\
     (forall k, filter (fun n => days n =? k) notes
                = filter (fun n => days n =? k) pushed)) /\
  ((forall file cache, In (file, cache) files ->
      exists r, scan_file h settings today file cache = Normal r) ->
   exists notes, scanVault h settings now files = Normal notes) /\
  (forall r1 r2,
     r1 = scanVault h settings now files ->
     r2 = scanVault h settings now files -> r1 = r2).
Proof.
  intros today. split; [| split].
  - intros notes. unfold scanVault. fold today.
    destruct (scan_loop h settings today files []) as [pushed' | e] eqn:Hloop;
      [| discriminate].
    cbn [bind]. intros [= <-].
    set (pushed := encountered h settings today files).
    assert (Hp : pushed' = pushed) by exact (scan_loop_encountered _ _ _ _ _ _ Hloop).
    subst pushed'.
    assert (Hw : Forall whole_days pushed).
    { unfold pushed, today. destruct (stripTime_Some h now) as [t0 ->].
      apply encountered_whole_days. }
    split; [reflexivity |].
    split; [now apply Array_sort_Forall |].
    split; [apply (Array_sort_sorted _ days whole_days daysUntil_cmp _ Hw) |].
    split; [apply Array_sort_Permutation |].
    intros k. apply (Array_sort_filter _ days whole_days daysUntil_cmp k _ Hw).
  - intros Hall. unfold scanVault. fold today.
    destruct (scan_loop_returns h settings today files Hall []) as [pushed ->].
    cbn [bind]. eauto.
  - intros r1 r2 -> ->. reflexivity.
Qed.

(** ** Calendar *)

Lemma YearFromTime_spec (t : Z) :
  DayFromYear (YearFromTime t) <= Day t < DayFromYear (YearFromTime t + 1).
Proof.
  unfold YearFromTime. generalize (Day t). intros d.
  set (y := 1970 + 400 * d / 146097).
  assert (Hy : 146097 * (y - 1970) <= 400 * d < 146097 * (y - 1970) + 146097).
  { unfold y. Z.div_mod_to_equations. lia. }
  clearbody y.
  destruct (Z.leb_spec (DayFromYear (y + 1)) d) as [H1 | H1].
  - split; [assumption |]. unfold DayFromYear in *. Z.div_mod_to_equations. lia.
  - destruct (Z.leb_spec (DayFromYear y) d) as [H2 | H2].
    + split; assumption.
    + replace (y - 1 + 1) with y by lia. split; [| assumption].
      unfold DayFromYear in *. Z.div_mod_to_equations. lia.
Qed.

Lemma DayFromYear_step (y : Z) :
  DayFromYear (y + 1) = DayFromYear y + DaysInYear y.
Proof.
  unfold DayFromYear, DaysInYear.
  replace (y + 1 - 1969) with (y - 1968) by lia.
  replace (y + 1 - 1901) with (y - 1900) by lia.
  replace (y + 1 - 1601) with (y - 1600) by lia.
  replace (y + 1 - 1970) with (y - 1969) by lia.
  assert (E4 : (y - 1968) / 4
               = (y - 1969) / 4 + (if y mod 4 =? 0 then 1 else 0)).
  { destruct (Z.eqb_spec (y mod 4) 0); Z.div_mod_to_equations; lia. }
  assert (E100 : (y - 1900) / 100
                 = (y - 1901) / 100 + (if y mod 100 =? 0 then 1 else 0)).
  { destruct (Z.eqb_spec (y mod 100) 0); Z.div_mod_to_equations; lia. }
  assert (E400 : (y - 1600) / 400
                 = (y - 1601) / 400 + (if y mod 400 =? 0 then 1 else 0)).
  { destruct (Z.eqb_spec (y mod 400) 0); Z.div_mod_to_equations; lia. }
  rewrite E4, E100, E400.
  assert (y mod 100 = 0 -> y mod 4 = 0) by (Z.div_mod_to_equations; lia).
  assert (y mod 400 = 0 -> y mod 100 = 0) by (Z.div_mod_to_equations; lia).
  destruct (Z.eqb_spec (y mod 4) 0), (Z.eqb_spec (y mod 100) 0),
    (Z.eqb_spec (y mod 400) 0); cbn [negb]; lia.
Qed.

Lemma YearFromTime_epoch (t : Z) : 0 <= t -> 1970 <= YearFromTime t.
Proof.
  intros Ht. pose proof (YearFromTime_spec t) as [_ H].
  assert (0 <= Day t) by (unfold Day, msPerDay; Z.div_mod_to_equations; lia).
  unfold DayFromYear in H. Z.div_mod_to_equations. lia.
Qed.

Lemma MonthFromTime_range (t : Z) : 0 <= MonthFromTime t <= 11.
Proof.
  unfold MonthFromTime.
  repeat match goal with
         | |- context [if ?c then _ else _] => destruct c
         end; lia.
Qed.

(** The day number [MakeDay] builds from the year and the month of a time
    value: the first of its month, moved by [dt - 1]. *)
Lemma MakeDay_of_time (t dt : Z) :
  MakeDay (YearFromTime t) (MonthFromTime t) dt = Day t - DateFromTime t + dt.
Proof.
  pose proof (MonthFromTime_range t) as Hm. unfold MakeDay.
  rewrite Z.div_small, Z.mod_small, Z.add_0_r by lia.
  change (if DaysInYear (YearFromTime t) =? 366 then 1 else 0)
    with (InLeapYear t).
  assert (Hd : Day t = DayFromYear (YearFromTime t) + DayWithinYear t)
    by (unfold DayWithinYear; lia).
  rewrite Hd. unfold DateFromTime, MonthFromTime.
  generalize (DayWithinYear t) (InLeapYear t) (DayFromYear (YearFromTime t)).
  intros d leap y0.
  repeat match goal with
         | |- context [if ?c then _ else _] => destruct c
         end; cbn [month_start]; lia.
Qed.

Lemma Day_plus_days (t d : Z) : Day (t + d * msPerDay) = Day t + d.
Proof. unfold Day. apply Z.div_add. discriminate. Qed.

Lemma TimeWithinDay_plus_days (t d : Z) :
  TimeWithinDay (t + d * msPerDay) = TimeWithinDay t.
Proof. unfold TimeWithinDay. apply Z.mod_add. discriminate. Qed.

Lemma Day_TimeWithinDay (t : Z) : Day t * msPerDay + TimeWithinDay t = t.
Proof.
  unfold Day, TimeWithinDay.
  pose proof (Z.div_mod t msPerDay ltac:(discriminate)). lia.
Qed.

Lemma YearFromTime_same_day (t u : Z) :
  Day t = Day u -> YearFromTime t = YearFromTime u.
Proof. unfold YearFromTime. now intros ->. Qed.

Lemma MonthFromTime_same_day (t u : Z) :
  Day t = Day u -> MonthFromTime t = MonthFromTime u.
Proof.
  intros H. unfold MonthFromTime, DayWithinYear, InLeapYear.
  now rewrite H, (YearFromTime_same_day t u H).
Qed.

Lemma DateFromTime_same_day (t u : Z) :
  Day t = Day u -> DateFromTime t = DateFromTime u.
Proof.
  intros H. unfold DateFromTime, DayWithinYear, InLeapYear.
  now rewrite H, (YearFromTime_same_day t u H), (MonthFromTime_same_day t u H).
Qed.

(** ** Dates of the plugin *)

Lemma toDateString_same_day (h : Host) (t u : Z) :
  Day (LocalTime h t) = Day (LocalTime h u) ->
  toDateString h (Some t) = toDateString h (Some u).
Proof.
  intros H. unfold toDateString, getFullYear, getMonth, getDate.
  now rewrite (YearFromTime_same_day _ _ H), (MonthFromTime_same_day _ _ H),
    (DateFromTime_same_day _ _ H).
Qed.

(** [stripTime] on a date whose local year is not one of 0 to 99: the
    midnight that starts its local day. *)
Lemma stripTime_midnight (h : Host) (t : Z) :
  ~ 0 <= YearFromTime (LocalTime h t) <= 99 ->
  stripTime h (Some t) = Some (UTC h (Day (LocalTime h t) * msPerDay)).
Proof.
  intros Hy. unfold stripTime, Date_of_components, getFullYear, getMonth, getDate.
  rewrite !finite_trunc_of_Z.
  replace ((0 <=? YearFromTime (LocalTime h t))
           && (YearFromTime (LocalTime h t) <=? 99)) with false
    by (destruct (Z.leb_spec 0 (YearFromTime (LocalTime h t))),
          (Z.leb_spec (YearFromTime (LocalTime h t)) 99); simpl; lia).
  rewrite MakeDay_of_time. unfold MakeDate. do 2 f_equal. lia.
Qed.

Lemma get_set (fm : list (string * value)) (k k' : string) (v : value) :
  get (set fm k v) k' = if String.eqb k k' then v else get fm k'.
Proof.
  induction fm as [| [k0 w] fm IH]; simpl.
  - reflexivity.
  - destruct (String.eqb_spec k0 k) as [-> | Hne]; simpl.
    + now destruct (String.eqb k k').
    + rewrite IH. destruct (String.eqb_spec k0 k') as [-> | Hne'].
      * destruct (String.eqb_spec k k'); congruence.
      * reflexivity.
Qed.

Lemma scanVault_sorted_stable_witness :
  exists notes,
    scanVault (sample_host 0) DEFAULT_SETTINGS 1740805200123 sample_vault
    = Normal notes /\
    StronglySorted (fun a b => days a <= days b) notes.
Proof.
  pose proof (scanVault_sorted_stable (sample_host 0) DEFAULT_SETTINGS
                1740805200123 sample_vault) as [Hsorted [Hreturns _]].
  destruct Hreturns as [notes Hnotes].
  - intros file cache [H | [H | [H | [H | []]]]]; inversion H; subst;
      eexists; vm_compute; reflexivity.
  - exists notes. split; [exact Hnotes |].
    exact (proj1 (proj2 (proj2 (Hsorted notes Hnotes)))).
Defined.

(** ** Where the code leaves its contract *)

Lemma scan_file_level (h : Host) (settings : ReviewReminderSettings)
    (today : Date) (file : TFile) (fm : list (string * value)) (n : ReviewNote) :
  scan_file h settings today file (Some fm) = Normal (Some n) ->
  ToNumber h (nullish (get fm (freqProperty settings)) (VNumber (of_Z 0)))
  = Normal (reviewFreq n).
Proof.
  intros H.
  destruct (scan_file_pushed _ _ _ _ _ _ H)
    as [s [t [level [tgs [_ [_ [_ [Hlevel [_ ->]]]]]]]]].
  exact Hlevel.
Qed.

(** The level of a scanned note when the level field is absent or [null]
    (0) and when it holds a number (that number). *)
Lemma scan_file_level_default (h : Host) (settings : ReviewReminderSettings)
    (today : Date) (file : TFile) (fm : list (string * value)) (n : ReviewNote) :
  scan_file h settings today file (Some fm) = Normal (Some n) ->
  (get fm (freqProperty settings) = VUndefined \/
   get fm (freqProperty settings) = VNull -> reviewFreq n = of_Z 0) /\
  (forall x, get fm (freqProperty settings) = VNumber x -> reviewFreq n = x).
Proof.
  intros H. pose proof (scan_file_level _ _ _ _ _ _ H) as Hl. split.
  - intros [E | E]; rewrite E in Hl; cbn in Hl; congruence.
  - intros x E. rewrite E in Hl. cbn in Hl. congruence.
Qed.

(** C4. The level field is coerced with [Number(... ?? 0)]: a value that
    does not read as a number, as the string ["abc"], gives the level
    [NaN], not 0. *)
Theorem scan_level_not_numeric (h : Host) (today : Date) :
  exists n,
    scan_file h DEFAULT_SETTINGS today sample_file
      (Some [("review_next", VString "2025-03-01");
             ("review_freq", VString "abc")]) = Normal (Some n) /\
    reviewFreq n = NaN /\ reviewFreq n <> of_Z 0.
Proof.
  rewrite (scan_file_dated h DEFAULT_SETTINGS today sample_file _
             "2025-03-01" 1740787200000) by reflexivity.
  eexists. split; [reflexivity |]. split; [reflexivity | discriminate].
Qed.

Lemma scan_file_tags (h : Host) (settings : ReviewReminderSettings)
    (today : Date) (file : TFile) (fm : list (string * value)) (n : ReviewNote) :
  scan_file h settings today file (Some fm) = Normal (Some n) ->
  (get fm "tags" = VUndefined \/ get fm "tags" = VNull -> tags n = []) /\
  (forall elements, get fm "tags" = VArray elements ->
                    map_ToString h elements = Normal (tags n)).
Proof.
  intros H.
  destruct (scan_file_pushed _ _ _ _ _ _ H)
    as [s [t [level [tgs [_ [_ [_ [_ [Htags ->]]]]]]]]].
  cbn [tags]. split.
  - intros [E | E]; rewrite E in Htags; simpl in Htags; congruence.
  - intros elements E. rewrite E in Htags. exact Htags.
Qed.

(** C6. The tags are read with [(... ?? []).map(String)]: on a file with a
    date and a [tags] field that is not an array, as the string
    ["project"], the call of [map] throws a [TypeError] and the scan ends
    with it. *)
Theorem scan_tags_not_array (h : Host) (now : Z) :
  scanVault h DEFAULT_SETTINGS now
    [(sample_file, Some [("review_next", VString "2025-03-01");
                         ("tags", VString "project")])]
  = Throw TypeError.
Proof.
  unfold scanVault. cbn [scan_loop].
  rewrite (scan_file_dated h DEFAULT_SETTINGS _ sample_file _
             "2025-03-01" 1740787200000) by reflexivity.
  reflexivity.
Qed.

(** *** The date round trip *)

Lemma range_check (ok : Z -> bool) (lo len : Z) :
  forallb ok (map Z.of_nat (seq (Z.to_nat lo) (Z.to_nat len))) = true ->
  forall z, 0 <= lo <= z -> z < lo + len -> ok z = true.
Proof.
  intros H z Hlo Hz. rewrite forallb_forall in H. apply H.
  replace z with (Z.of_nat (Z.to_nat z)) by lia. apply in_map, in_seq. lia.
Qed.

Lemma year_string (y : Z) :
  1000 <= y <= 9999 ->
  exists a b c d,
    Z_toString y = String a (String b (String c (String d EmptyString))) /\
    is_digit a = true /\ is_digit b = true /\
    is_digit c = true /\ is_digit d = true /\
    1000 * digit_value a + 100 * digit_value b
    + 10 * digit_value c + digit_value d = y.
Proof.
  intros Hy.
  assert (Hok : year_digits_ok y = true).
  { apply (range_check year_digits_ok 1000 9000); [vm_compute; reflexivity | lia ..]. }
  unfold year_digits_ok in Hok.
  destruct (Z_toString y) as [| a [| b [| c [| d [| ? ?]]]]]; try discriminate.
  exists a, b, c, d. cbn [forallb] in Hok.
  rewrite !andb_true_iff, Z.eqb_eq in Hok. intuition.
Qed.

Lemma pair_string (n : Z) :
  0 <= n <= 99 ->
  exists a b,
    padStart2 (Z_toString n) = String a (String b EmptyString) /\
    is_digit a = true /\ is_digit b = true /\
    10 * digit_value a + digit_value b = n.
Proof.
  intros Hn.
  assert (Hok : pair_digits_ok n = true).
  { apply (range_check pair_digits_ok 0 100); [vm_compute; reflexivity | lia ..]. }
  unfold pair_digits_ok in Hok.
  destruct (padStart2 (Z_toString n)) as [| a [| b [| ? ?]]]; try discriminate.
  exists a, b. rewrite !andb_true_iff, Z.eqb_eq in Hok. intuition.
Qed.

Lemma Number_toString_of_Z (h : Host) (z : Z) :
  Z.abs z < 10 ^ 21 -> Number_toString h (of_Z z) = Z_toString z.
Proof.
  intros Hz. unfold Number_toString, of_Z.
  change (Fin (inject_Z z)) with (of_Z z). rewrite to_integer_of_Z.
  destruct (Z.ltb_spec (Z.abs z) (10 ^ 21)); [reflexivity | lia].
Qed.

Lemma DaysInYear_cases (y : Z) : DaysInYear y = 365 \/ DaysInYear y = 366.
Proof.
  unfold DaysInYear.
  destruct (y mod 4 =? 0), (y mod 100 =? 0), (y mod 400 =? 0); cbn [negb]; auto.
Qed.

Lemma DayWithinYear_range (t : Z) :
  0 <= DayWithinYear t < 365 + InLeapYear t.
Proof.
  pose proof (YearFromTime_spec t) as Hs.
  rewrite DayFromYear_step in Hs. unfold DayWithinYear, InLeapYear.
  destruct (DaysInYear_cases (YearFromTime t)) as [E | E]; rewrite E in *;
    cbn [Z.eqb Pos.eqb]; lia.
Qed.

Lemma DaysInMonth_start (y m : Z) :
  0 <= m <= 10 ->
  DaysInMonth y m
  = month_start (if DaysInYear y =? 366 then 1 else 0) (m + 1)
    - month_start (if DaysInYear y =? 366 then 1 else 0) m.
Proof.
  intros Hm. unfold DaysInMonth, MakeDay.
  rewrite !Z.div_small, !Z.mod_small, !Z.add_0_r by lia. lia.
Qed.

Lemma DaysInMonth_december (y : Z) : DaysInMonth y 11 = 31.
Proof.
  unfold DaysInMonth, MakeDay.
  change ((11 + 1) / 12) with 1. change ((11 + 1) mod 12) with 0.
  change (11 / 12) with 0. change (11 mod 12) with 11.
  replace (y + 0) with y by lia. rewrite DayFromYear_step.
  pose proof (DaysInYear_cases y).
  destruct (Z.eqb_spec (DaysInYear y) 366);
    destruct (DaysInYear (y + 1) =? 366); cbn [month_start]; lia.
Qed.

Lemma DateFromTime_range (t : Z) :
  1 <= DateFromTime t <= DaysInMonth (YearFromTime t) (MonthFromTime t).
Proof.
  pose proof (DayWithinYear_range t) as Hd.
  pose proof (MonthFromTime_range t) as Hm.
  destruct (Z.eq_dec (MonthFromTime t) 11) as [E | E].
  - rewrite E, DaysInMonth_december. revert E.
    unfold DateFromTime, MonthFromTime.
    repeat match goal with
           | |- context [if ?a <? ?b then _ else _] => destruct (Z.ltb_spec a b)
           end; intros; try discriminate; lia.
  - rewrite DaysInMonth_start by lia.
    change (if DaysInYear (YearFromTime t) =? 366 then 1 else 0)
      with (InLeapYear t).
    revert E. unfold DateFromTime, MonthFromTime.
    assert (Hl : InLeapYear t = 0 \/ InLeapYear t = 1)
      by (unfold InLeapYear; destruct (_ =? _); auto).
    revert Hd Hl. generalize (DayWithinYear t) (InLeapYear t). intros d leap Hd Hl.
    destruct Hl as [-> | ->];
      repeat match goal with
             | |- context [if ?a <? ?b then _ else _] => destruct (Z.ltb_spec a b)
             end; intros; cbn [month_start Z.add Pos.add Pos.succ Pos.add_carry];
      lia.
Qed.

Lemma parse_date_only_digits (a b c d m1 m2 d1 d2 : ascii) :
  forallb is_digit [a; b; c; d; m1; m2; d1; d2] = true ->
  let y := 1000 * digit_value a + 100 * digit_value b
           + 10 * digit_value c + digit_value d in
  let m := 10 * digit_value m1 + digit_value m2 in
  let dt := 10 * digit_value d1 + digit_value d2 in
  1 <= m <= 12 -> 1 <= dt <= DaysInMonth y (m - 1) ->
  parse_date_only
    (String a (String b (String c (String d (String "-"
       (String m1 (String m2 (String "-"
          (String d1 (String d2 EmptyString))))))))))
  = Some (MakeDate (MakeDay y (m - 1) dt) 0).
Proof.
  intros Hdig y m dt Hm Hdt. unfold parse_date_only. rewrite Hdig.
  fold y m dt.
  destruct (Z.leb_spec 1 m), (Z.leb_spec m 12), (Z.leb_spec 1 dt),
    (Z.leb_spec dt (DaysInMonth y (m - 1))); try lia. reflexivity.
Qed.

(** A date written by [toDateString] with a year of four digits is read
    back by the [Date] constructor as UTC midnight of the local day it was
    written for. *)
Lemma Date_of_string_toDateString (h : Host) (t : Z) :
  1000 <= YearFromTime (LocalTime h t) <= 9999 ->
  Date_of_string h (toDateString h (Some t))
  = Some (Day (LocalTime h t) * msPerDay).
Proof.
  intros Hy. unfold toDateString, getFullYear, getMonth, getDate.
  pose proof (MonthFromTime_range (LocalTime h t)) as Hm.
  pose proof (DateFromTime_range (LocalTime h t)) as Hd.
  assert (Hd31 : DaysInMonth (YearFromTime (LocalTime h t))
                   (MonthFromTime (LocalTime h t)) <= 31).
  { destruct (Z.eq_dec (MonthFromTime (LocalTime h t)) 11) as [E | E].
    - rewrite E, DaysInMonth_december. lia.
    - rewrite DaysInMonth_start by lia.
      assert (E12 : exists k, MonthFromTime (LocalTime h t) = k /\
                              (k = 0 \/ k = 1 \/ k = 2 \/ k = 3 \/ k = 4 \/ k = 5 \/
                               k = 6 \/ k = 7 \/ k = 8 \/ k = 9 \/ k = 10))
        by (eexists; split; [reflexivity | lia]).
      destruct E12 as [k [-> Hk]].
      destruct (DaysInYear _ =? 366);
        repeat (destruct Hk as [-> | Hk]); try subst k; cbn; lia. }
  rewrite num_add_of_Z by (change (2 ^ 53) with 9007199254740992; lia).
  rewrite !Number_toString_of_Z
    by (change (10 ^ 21) with 1000000000000000000000; lia).
  destruct (year_string _ Hy) as (a & b & c & d & -> & Ha & Hb & Hc & Hdd & Hyv).
  destruct (pair_string (MonthFromTime (LocalTime h t) + 1)) as (m1 & m2 & -> & Hm1 & Hm2 & Hmv);
    [lia |].
  destruct (pair_string (DateFromTime (LocalTime h t))) as (d1 & d2 & -> & Hd1 & Hd2 & Hdv);
    [lia |].
  cbn [append]. unfold Date_of_string.
  rewrite parse_date_only_digits.
  - rewrite Hyv, Hmv, Hdv.
    replace (MonthFromTime (LocalTime h t) + 1 - 1)
      with (MonthFromTime (LocalTime h t)) by lia.
    rewrite MakeDay_of_time. unfold MakeDate. f_equal. lia.
  - cbn [forallb]. now rewrite Ha, Hb, Hc, Hdd, Hm1, Hm2, Hd1, Hd2.
  - rewrite Hmv. lia.
  - rewrite Hyv, Hmv, Hdv.
    replace (MonthFromTime (LocalTime h t) + 1 - 1)
      with (MonthFromTime (LocalTime h t)) by lia.
    exact Hd.
Qed.

Lemma DayFromYear_gap (y1 y2 : Z) :
  y1 < y2 -> DayFromYear y1 + 365 <= DayFromYear y2.
Proof. intros H. unfold DayFromYear. Z.div_mod_to_equations. lia. Qed.

Lemma YearFromTime_day_before (t u : Z) :
  Day u = Day t - 1 -> YearFromTime t - 1 <= YearFromTime u.
Proof.
  intros Hu. pose proof (YearFromTime_spec t) as Ht.
  pose proof (YearFromTime_spec u) as Hu'.
  destruct (Z.le_gt_cases (YearFromTime t - 1) (YearFromTime u)) as [H | H];
    [assumption | exfalso].
  pose proof (DayFromYear_gap (YearFromTime u + 1) (YearFromTime t)). lia.
Qed.

(** The round trip for a zone at or east of UTC (an offset from 0 up to a
    day) and a date with a year of four digits: the date read back from
    the written string is, stripped of its time, the date stripped of its
    time. *)
Lemma date_round_trip_east_of_UTC (h : Host) (t : Z) :
  0 <= LocalTZA h < msPerDay ->
  1000 <= YearFromTime (LocalTime h t) <= 9999 ->
  stripTime h (Date_of_string h (toDateString h (Some t))) = stripTime h (Some t).
Proof.
  intros Htz Hy. rewrite Date_of_string_toDateString by assumption.
  assert (Hday : Day (LocalTime h (Day (LocalTime h t) * msPerDay))
                 = Day (LocalTime h t)).
  { unfold LocalTime at 1. unfold Day at 1.
    rewrite Z.add_comm, Z.div_add by discriminate.
    rewrite Z.div_small by lia. lia. }
  rewrite !stripTime_midnight.
  - now rewrite Hday.
  - lia.
  - rewrite (YearFromTime_same_day _ _ Hday). lia.
Qed.

(** The same for a zone west of UTC (an offset down to minus a day): the
    date read back is, stripped of its time, one day before. *)
Lemma date_round_trip_west_of_UTC_general (h : Host) (t : Z) :
  - msPerDay <= LocalTZA h < 0 ->
  1000 <= YearFromTime (LocalTime h t) <= 9999 ->
  exists t0,
    stripTime h (Some t) = Some t0 /\
    stripTime h (Date_of_string h (toDateString h (Some t)))
    = Some (t0 - msPerDay).
Proof.
  intros Htz Hy. rewrite Date_of_string_toDateString by assumption.
  assert (Hday : Day (LocalTime h (Day (LocalTime h t) * msPerDay))
                 = Day (LocalTime h t) - 1).
  { unfold LocalTime at 1. unfold Day at 1.
    replace (Day (LocalTime h t) * msPerDay + LocalTZA h)
      with (LocalTZA h + msPerDay + (Day (LocalTime h t) - 1) * msPerDay) by lia.
    rewrite Z.div_add by discriminate.
    rewrite Z.div_small by lia. lia. }
  exists (UTC h (Day (LocalTime h t) * msPerDay)).
  rewrite !stripTime_midnight.
  - split; [reflexivity |]. rewrite Hday. unfold UTC. f_equal. lia.
  - pose proof (YearFromTime_day_before _ _ Hday). lia.
  - lia.
Qed.

(** C3. Five hours west of UTC, for the date 2025-03-01: the date is
    written as ["2025-03-01"], the string is read back as UTC midnight,
    which is the evening of the day before in local time, and [stripTime]
    of it is 2025-02-28, one day before [stripTime] of the date itself. *)
Theorem date_round_trip_west_of_UTC :
  let h := sample_host (-18000000) in
  let d := Some 1740805200000 in
  toDateString h d = "2025-03-01" /\
  stripTime h d = Some 1740805200000 /\
  stripTime h (Date_of_string h (toDateString h d)) = Some 1740718800000 /\
  toDateString h (stripTime h (Date_of_string h (toDateString h d)))
  = "2025-02-28" /\
  stripTime h (Date_of_string h (toDateString h d)) <> stripTime h d.
Proof.
  vm_compute. repeat split; discriminate.
Qed.


Lemma daysBetween_whole (a k : Z) :
  daysBetween (Some a) (Some (a + k * msPerDay)) = of_Z k.
Proof.
  unfold daysBetween, Math_round_div, msPerDay. f_equal.
  replace (2 * (a + k * 86400000 - a) + 86400000)
    with (86400000 + k * (2 * 86400000)) by lia.
  rewrite Z.div_add by discriminate. now rewrite Z.div_small by lia.
Qed.

(** ** Reviews *)

Lemma DaysInMonth_le_31 (y m : Z) : 0 <= m <= 11 -> DaysInMonth y m <= 31.
Proof.
  intros Hm. destruct (Z.eq_dec m 11) as [E | E].
  - rewrite E, DaysInMonth_december. lia.
  - rewrite DaysInMonth_start by lia.
    assert (Hk : m = 0 \/ m = 1 \/ m = 2 \/ m = 3 \/ m = 4 \/ m = 5 \/
                 m = 6 \/ m = 7 \/ m = 8 \/ m = 9 \/ m = 10) by lia.
    destruct (DaysInYear _ =? 366);
      repeat (destruct Hk as [-> | Hk]); try subst m; cbn; lia.
Qed.

Lemma DateFromTime_le_31 (t : Z) : 1 <= DateFromTime t <= 31.
Proof.
  pose proof (DateFromTime_range t) as H.
  pose proof (DaysInMonth_le_31 (YearFromTime t) (MonthFromTime t)
                (MonthFromTime_range t)).
  lia.
Qed.

Lemma setDate_of_Z (h : Host) (now m : Z) :
  setDate h (Some now) (of_Z m)
  = TimeClip (now + (m - DateFromTime (LocalTime h now)) * msPerDay).
Proof.
  unfold setDate. rewrite finite_trunc_of_Z, MakeDay_of_time.
  unfold MakeDate, UTC. f_equal.
  pose proof (Day_TimeWithinDay (LocalTime h now)). unfold LocalTime in *. lia.
Qed.

(** [setDate(getDate() + d)] on the clock reading, for a whole number of
    days that leaves the date in the range of dates. *)
Lemma plusDays_whole (h : Host) (now d : Z) :
  Z.abs now <= maxTime -> Z.abs (now + d * msPerDay) <= maxTime ->
  plusDays h now (Some (of_Z d)) = Some (now + d * msPerDay).
Proof.
  intros Hnow Hnext. unfold plusDays, getDate.
  pose proof (DateFromTime_le_31 (LocalTime h now)) as Hdt.
  rewrite num_add_of_Z
    by (change (2 ^ 53) with 9007199254740992; unfold maxTime, msPerDay in *; lia).
  rewrite setDate_of_Z.
  replace (now + (DateFromTime (LocalTime h now) + d
                  - DateFromTime (LocalTime h now)) * msPerDay)
    with (now + d * msPerDay) by lia.
  unfold TimeClip. destruct (Z.leb_spec (Z.abs (now + d * msPerDay)) maxTime);
    [reflexivity | lia].
Qed.

(** Past the range of dates [setDate] leaves an Invalid Date, however
    large the number of days. *)
Lemma plusDays_out_of_range (h : Host) (now d : Z) :
  Z.abs now <= maxTime -> 0 <= d -> maxTime < now + d * msPerDay ->
  plusDays h now (Some (of_Z d)) = None.
Proof.
  intros Hnow Hd Hnext. unfold plusDays, getDate.
  pose proof (DateFromTime_le_31 (LocalTime h now)) as Hdt.
  rewrite num_add_binary64.
  destruct (to_binary64_positive (DateFromTime (LocalTime h now) + d))
    as [E | [m [Hm E]]]; [lia | now rewrite E |].
  assert (Hlow : Z.min (DateFromTime (LocalTime h now) + d) (2 ^ 53) <= m)
    by (apply to_binary64_lower; [lia | exact E]).
  rewrite E, setDate_of_Z. unfold TimeClip.
  change (2 ^ 53) with 9007199254740992 in Hlow.
  destruct (Z.leb_spec
              (Z.abs (now + (m - DateFromTime (LocalTime h now)) * msPerDay))
              maxTime) as [H | H]; [| reflexivity].
  unfold maxTime, msPerDay in *. lia.
Qed.

(** The calendar side of [plusDays]: from a clock reading not before 1970
    in local time, the date [d >= 0] days on is, stripped of its time,
    what the constructor makes of today's year and month and of today's
    day of the month plus [d], and the plugin counts [d] days up to it. *)
Lemma plusDays_calendar (h : Host) (now d : Z) :
  0 <= d -> 0 <= LocalTime h now ->
  Z.abs now <= maxTime -> Z.abs (now + d * msPerDay) <= maxTime ->
  let today := Some now in
  let nextDate := plusDays h now (Some (of_Z d)) in
  nextDate = Some (now + d * msPerDay) /\
  stripTime h today = Some (UTC h (Day (LocalTime h now) * msPerDay)) /\
  stripTime h nextDate
  = Some (UTC h (Day (LocalTime h now) * msPerDay) + d * msPerDay) /\
  stripTime h nextDate
  = Date_of_components h (getFullYear h today) (getMonth h today)
      (num_add (getDate h today) (of_Z d)) /\
  daysBetween (stripTime h today) (stripTime h nextDate) = of_Z d /\
  toDateString h (stripTime h nextDate) = toDateString h nextDate.
Proof.
  intros Hd Hlocal Hnow Hrange today nextDate.
  assert (Hnext : nextDate = Some (now + d * msPerDay))
    by (apply plusDays_whole; assumption).
  assert (Hl : LocalTime h (now + d * msPerDay) = LocalTime h now + d * msPerDay)
    by (unfold LocalTime; lia).
  assert (Htoday : stripTime h today
                   = Some (UTC h (Day (LocalTime h now) * msPerDay))).
  { apply stripTime_midnight. pose proof (YearFromTime_epoch _ Hlocal). lia. }
  assert (Hstrip : stripTime h nextDate
                   = Some (UTC h (Day (LocalTime h now) * msPerDay)
                           + d * msPerDay)).
  { rewrite Hnext, stripTime_midnight.
    - rewrite Hl, Day_plus_days. unfold UTC. f_equal. lia.
    - assert (0 <= LocalTime h (now + d * msPerDay))
        by (rewrite Hl; unfold msPerDay; lia).
      pose proof (YearFromTime_epoch _ H). lia. }
  split; [exact Hnext |]. split; [exact Htoday |]. split; [exact Hstrip |].
  split; [| split].
  - rewrite Hstrip. unfold today, Date_of_components, getFullYear, getMonth,
      getDate.
    pose proof (DateFromTime_le_31 (LocalTime h now)) as Hdt.
    rewrite num_add_of_Z
      by (change (2 ^ 53) with 9007199254740992;
          unfold maxTime, msPerDay in *; lia).
    rewrite !finite_trunc_of_Z.
    replace ((0 <=? YearFromTime (LocalTime h now))
             && (YearFromTime (LocalTime h now) <=? 99)) with false
      by (pose proof (YearFromTime_epoch _ Hlocal);
          destruct (Z.leb_spec 0 (YearFromTime (LocalTime h now))),
            (Z.leb_spec (YearFromTime (LocalTime h now)) 99); simpl; lia).
    rewrite MakeDay_of_time. unfold MakeDate, UTC. f_equal. lia.
  - rewrite Htoday, Hstrip. apply daysBetween_whole.
  - rewrite Hstrip, Hnext. apply toDateString_same_day.
    rewrite Hl, Day_plus_days. unfold UTC, LocalTime.
    replace (Day (now + LocalTZA h) * msPerDay - LocalTZA h + d * msPerDay
             + LocalTZA h)
      with (0 + (Day (now + LocalTZA h) + d) * msPerDay) by lia.
    rewrite Day_plus_days. reflexivity.
Qed.





(** * Further properties of the code *)

(** ** Buckets, whatever the day counts *)

Lemma bucketize_step_tests (th : number) (notes : list ReviewNote) :
  forall b,
    fold_left (bucketize_step th) notes b =
    {| overdue :=
         overdue b ++ filter (fun n => num_ltb (daysUntil n) (of_Z 0)) notes;
       today :=
         today b ++ filter (fun n => negb (num_ltb (daysUntil n) (of_Z 0))
                                     && num_eqb (daysUntil n) (of_Z 0)) notes;
       upcoming :=
         upcoming b ++ filter (fun n => negb (num_ltb (daysUntil n) (of_Z 0))
                                        && negb (num_eqb (daysUntil n) (of_Z 0))
                                        && num_leb (daysUntil n) th) notes;
       later :=
         later b ++ filter (fun n => negb (num_ltb (daysUntil n) (of_Z 0))
                                     && negb (num_eqb (daysUntil n) (of_Z 0))
                                     && negb (num_leb (daysUntil n) th)) notes |}.
Proof.
  induction notes as [| n notes IH]; intros b.
  - cbn [fold_left filter]. rewrite !app_nil_r. now destruct b.
  - cbn [fold_left filter]. rewrite IH. unfold bucketize_step.
    destruct (num_ltb (daysUntil n) (of_Z 0)),
      (num_eqb (daysUntil n) (of_Z 0)), (num_leb (daysUntil n) th);
      cbn [negb andb overdue today upcoming later];
      rewrite <- ?app_assoc; reflexivity.
Qed.

(** X1. [bucketize] neither drops nor doubles a note, for every list of
    notes and every threshold, numbers that are no integers included: the
    four buckets together are a rearrangement of the input, their sizes add
    up to its size, and a note whose day count is [NaN] goes to [later]. *)
Theorem bucketize_conserves (settings : ReviewReminderSettings)
    (notes : list ReviewNote) :
  let b := bucketize settings notes in
  Permutation notes (overdue b ++ today b ++ upcoming b ++ later b) /\
  (List.length (overdue b) + List.length (today b)
   + List.length (upcoming b) + List.length (later b) = List.length notes)%nat /\
  (forall n, In n notes -> daysUntil n = NaN -> In n (later b)).
Proof.
  intros b. unfold b, bucketize. rewrite bucketize_step_tests.
  cbn [overdue today upcoming later app].
  assert (Hperm : Permutation notes
    (filter (fun n => num_ltb (daysUntil n) (of_Z 0)) notes
     ++ filter (fun n => negb (num_ltb (daysUntil n) (of_Z 0))
                         && num_eqb (daysUntil n) (of_Z 0)) notes
     ++ filter (fun n => negb (num_ltb (daysUntil n) (of_Z 0))
                         && negb (num_eqb (daysUntil n) (of_Z 0))
                         && num_leb (daysUntil n) (upcomingDays settings)) notes
     ++ filter (fun n => negb (num_ltb (daysUntil n) (of_Z 0))
                         && negb (num_eqb (daysUntil n) (of_Z 0))
                         && negb (num_leb (daysUntil n) (upcomingDays settings)))
          notes)).
  { apply four_filters_Permutation. intros x.
    destruct (num_ltb (daysUntil x) (of_Z 0)),
      (num_eqb (daysUntil x) (of_Z 0)),
      (num_leb (daysUntil x) (upcomingDays settings)); exact I. }
  split; [exact Hperm |]. split.
  - apply Permutation_length in Hperm. rewrite !length_app in Hperm. lia.
  - intros n Hin Hnan. apply filter_In. split; [assumption |].
    rewrite Hnan. reflexivity.
Qed.

(** ** Buckets of a scan *)

Lemma scanVault_Normal (h : Host) (settings : ReviewReminderSettings)
    (now : Z) (files : Vault) (notes : list ReviewNote) :
  scanVault h settings now files = Normal notes ->
  notes = Array_sort (fun a b => num_sub (daysUntil a) (daysUntil b))
            (encountered h settings (stripTime h (Some now)) files).
Proof.
  unfold scanVault.
  destruct (scan_loop h settings (stripTime h (Some now)) files [])
    as [pushed | e] eqn:Hloop; [| discriminate].
  cbn [bind]. intros [= <-].
  now rewrite (scan_loop_encountered _ _ _ _ _ _ Hloop).
Qed.

Lemma scanVault_whole_sorted (h : Host) (settings : ReviewReminderSettings)
    (now : Z) (files : Vault) (notes : list ReviewNote) :
  scanVault h settings now files = Normal notes ->
  Forall whole_days notes /\
  StronglySorted (fun a b => days a <= days b) notes.
Proof.
  intros H. rewrite (scanVault_Normal _ _ _ _ _ H).
  assert (Hw : Forall whole_days
                 (encountered h settings (stripTime h (Some now)) files)).
  { destruct (stripTime_Some h now) as [t0 ->]. apply encountered_whole_days. }
  split.
  - now apply Array_sort_Forall.
  - apply (Array_sort_sorted _ days whole_days daysUntil_cmp _ Hw).
Qed.

Lemma filter_none {A : Type} (f : A -> bool) (l : list A) :
  Forall (fun x => f x = false) l -> filter f l = [].
Proof.
  induction 1 as [| x l Hx _ IH]; cbn [filter]; [reflexivity |].
  now rewrite Hx.
Qed.

Lemma sorted_filters_concat (th : Z) (l : list ReviewNote) :
  0 <= th -> StronglySorted (fun a b => days a <= days b) l ->
  filter (fun n => days n <? 0) l
  ++ filter (fun n => days n =? 0) l
  ++ filter (fun n => (0 <? days n) && (days n <=? th)) l
  ++ filter (fun n => th <? days n) l = l.
Proof.
  intros Hth Hs. induction Hs as [| x l Hs IH Hx]; [reflexivity |].
  cbn [filter].
  destruct (Z.ltb_spec (days x) 0) as [H1 | H1].
  { replace (days x =? 0) with false by (symmetry; apply Z.eqb_neq; lia).
    replace (0 <? days x) with false by (symmetry; apply Z.ltb_ge; lia).
    replace (th <? days x) with false by (symmetry; apply Z.ltb_ge; lia).
    cbn [andb app]. now rewrite IH. }
  assert (F1 : filter (fun n => days n <? 0) l = []).
  { apply filter_none. eapply Forall_impl; [| exact Hx].
    intros y Hy. apply Z.ltb_ge. simpl in Hy. lia. }
  rewrite F1 in *. cbn [app] in *.
  destruct (Z.eqb_spec (days x) 0) as [H2 | H2].
  { replace (0 <? days x) with false by (symmetry; apply Z.ltb_ge; lia).
    replace (th <? days x) with false by (symmetry; apply Z.ltb_ge; lia).
    cbn [andb app]. now rewrite IH. }
  assert (F2 : filter (fun n => days n =? 0) l = []).
  { apply filter_none. eapply Forall_impl; [| exact Hx].
    intros y Hy. apply Z.eqb_neq. simpl in Hy. lia. }
  rewrite F2 in *. cbn [app] in *.
  replace (0 <? days x) with true by (symmetry; apply Z.ltb_lt; lia).
  destruct (Z.leb_spec (days x) th) as [H3 | H3].
  { replace (th <? days x) with false by (symmetry; apply Z.ltb_ge; lia).
    cbn [andb app]. now rewrite IH. }
  assert (F3 : filter (fun n => (0 <? days n) && (days n <=? th)) l = []).
  { apply filter_none. eapply Forall_impl; [| exact Hx].
    intros y Hy. simpl in Hy. apply andb_false_iff. right.
    apply Z.leb_gt. lia. }
  rewrite F3 in *. cbn [app] in *.
  replace (th <? days x) with true by (symmetry; apply Z.ltb_lt; lia).
  cbn [andb]. now rewrite IH.
Qed.

(** X2. The view scans and then buckets: for a threshold that is a
    non-negative integer the four buckets of a scan, put one after the
    other in the order of the sections (overdue, today, upcoming, later),
    are the scanned list itself, so the view as a whole lists the notes
    from the most overdue on. *)
Theorem scan_buckets_in_order (h : Host) (settings : ReviewReminderSettings)
    (now : Z) (files : Vault) (notes : list ReviewNote) (th : Z) :
  0 <= th -> upcomingDays settings = of_Z th ->
  scanVault h settings now files = Normal notes ->
  let b := bucketize settings notes in
  overdue b ++ today b ++ upcoming b ++ later b = notes.
Proof.
  intros Hth Hup Hscan b.
  destruct (scanVault_whole_sorted _ _ _ _ _ Hscan) as [Hw Hs].
  unfold b, bucketize. rewrite Hup, bucketize_step_filters by assumption.
  cbn [overdue today upcoming later app].
  now apply sorted_filters_concat.
Qed.

Lemma scan_buckets_in_order_witness :
  exists notes,
    scanVault (sample_host 0) DEFAULT_SETTINGS 1740805200123 sample_vault
    = Normal notes /\
    overdue (bucketize DEFAULT_SETTINGS notes)
    ++ today (bucketize DEFAULT_SETTINGS notes)
    ++ upcoming (bucketize DEFAULT_SETTINGS notes)
    ++ later (bucketize DEFAULT_SETTINGS notes) = notes.
Proof.
  eexists. split; [vm_compute; reflexivity |].
  apply (scan_buckets_in_order (sample_host 0) DEFAULT_SETTINGS
           1740805200123 sample_vault _ 7).
  - lia.
  - reflexivity.
  - vm_compute. reflexivity.
Defined.

(** ** Interval table, further *)

Lemma to_integer_Qnum (q : Q) (z : Z) :
  to_integer (Fin q) = Some z -> Qnum q = z * Zpos (Qden q).
Proof.
  unfold to_integer, is_integer.
  destruct (Z.eqb_spec (Zpos (Qden (Qred q))) 1) as [Hd | Hd]; [| discriminate].
  intros [= <-]. pose proof (Qred_correct q) as Hq. unfold Qeq in Hq.
  rewrite Hd in Hq. lia.
Qed.

Lemma num_ltb_integer (level : number) (z k : Z) :
  to_integer level = Some z -> num_ltb level (of_Z k) = (z <? k).
Proof.
  destruct level as [| neg | q]; try discriminate. intros Hz.
  apply to_integer_Qnum in Hz. unfold num_ltb, of_Z, Q_ltb, inject_Z.
  cbn [Qnum Qden]. rewrite Hz.
  destruct (Z.ltb_spec (z * Zpos (Qden q) * 1) (k * Zpos (Qden q))),
    (Z.ltb_spec z k); try reflexivity; nia.
Qed.

(** X3. On a non-empty table [getInterval] answers [undefined] exactly at
    a level that is below the length of the table without being a
    non-negative integer (a negative or a fractional level, or minus
    infinity); at every other level, [NaN] and plus infinity included, it
    answers an entry of the table. *)
Theorem getInterval_undefined (tbl : list number) (level : number) :
  tbl <> [] ->
  (getInterval tbl level = None <->
   num_ltb level (of_nat (List.length tbl)) = true /\
   (forall z, to_integer level = Some z -> z < 0)) /\
  (forall x, getInterval tbl level = Some x -> In x tbl).
Proof.
  intros Hne. rewrite getInterval_nonempty by assumption.
  destruct (num_ltb level (of_nat (List.length tbl))) eqn:Hlt.
  - unfold array_get. destruct (to_integer level) as [z |] eqn:Hz.
    + unfold of_nat in Hlt. rewrite (num_ltb_integer _ _ _ Hz) in Hlt.
      apply Z.ltb_lt in Hlt.
      destruct (Z.leb_spec 0 z) as [H0 | H0].
      * destruct (nth_error tbl (Z.to_nat z)) as [x |] eqn:Hx.
        -- split.
           ++ split; [discriminate |]. intros [_ H]. specialize (H z eq_refl). lia.
           ++ intros y [= <-]. eapply nth_error_In, Hx.
        -- apply nth_error_None in Hx. lia.
      * split; [| discriminate]. split; [| reflexivity].
        intros _. split; [reflexivity |]. now intros z' [= <-].
    + split; [| discriminate]. split; [| reflexivity].
      intros _. split; [reflexivity | discriminate].
  - rewrite (nth_error_last tbl NaN) by assumption. split.
    + split; [discriminate | intros [H _]; discriminate].
    + intros x [= <-]. destruct (exists_last Hne) as [l' [a ->]].
      rewrite last_last. apply in_or_app. right. now left.
Qed.

Lemma getInterval_undefined_witness :
  getInterval [of_Z 4; of_Z 8] (Fin (1 # 2)) = None /\
  (forall x, getInterval [of_Z 4; of_Z 8] (Infinity false) = Some x ->
             In x [of_Z 4; of_Z 8]).
Proof.
  assert (Hne : [of_Z 4; of_Z 8] <> []) by discriminate.
  split.
  - apply (proj1 (getInterval_undefined _ (Fin (1 # 2)) Hne)).
    split; [reflexivity | discriminate].
  - apply (proj2 (getInterval_undefined _ (Infinity false) Hne)).
Defined.



Lemma split_app_sep (sep : ascii) (a b : string) :
  split sep (a ++ String sep b)%string = split sep a ++ split sep b.
Proof.
  induction a as [| c a IH]; cbn [append split].
  - now rewrite Ascii.eqb_refl.
  - destruct (Ascii.eqb c sep).
    + now rewrite IH.
    + rewrite IH. pose proof (split_not_nil sep a) as Hne.
      destruct (split sep a); [congruence | reflexivity].
Qed.

(** X5. The interval setting is read piece by piece: the table of two
    settings joined by a comma is the table of the first followed by the
    table of the second, so adding [",n"] at the end of the setting adds
    at most one entry at the end of the table and changes no earlier
    one. *)
Theorem parseIntervals_comma (a b : string) :
  parseIntervals (a ++ String "," b)%string
  = parseIntervals a ++ parseIntervals b.
Proof.
  unfold parseIntervals. now rewrite split_app_sep, map_app, filter_app.
Qed.

(** ** Dates, further *)

(** X6. [daysBetween] counts whole days and forgives up to half a day:
    from a date to one that is [k] days later, give or take less than
    twelve hours (twelve hours early included), it answers [k]; this is
    what rounding instead of truncating buys. With an Invalid Date on
    either side it answers [NaN]. *)
Theorem daysBetween_rounds (a k s : Z) :
  - 43200000 <= s < 43200000 ->
  daysBetween (Some a) (Some (a + k * 86400000 + s)) = of_Z k /\
  (forall b, daysBetween None b = NaN) /\
  (forall b, daysBetween b None = NaN).
Proof.
  intros Hs. split; [| split].
  - unfold daysBetween, Math_round_div. f_equal.
    replace (2 * (a + k * 86400000 + s - a) + 86400000)
      with (2 * s + 86400000 + k * (2 * 86400000)) by lia.
    rewrite Z.div_add by discriminate. rewrite Z.div_small by lia. lia.
  - reflexivity.
  - now intros [b |].
Qed.

Lemma daysBetween_rounds_witness :
  daysBetween (Some 1000) (Some (1000 + 3 * 86400000 + -3600000)) = of_Z 3.
Proof.
  apply (proj1 (daysBetween_rounds 1000 3 (-3600000) ltac:(lia))).
Defined.

Lemma Day_of_midnight (d r : Z) :
  0 <= r < msPerDay -> Day (d * msPerDay + r) = d.
Proof.
  intros Hr. unfold Day. rewrite Z.add_comm, Z.div_add by discriminate.
  rewrite Z.div_small by assumption. lia.
Qed.



(** X8. In every zone, the string [toDateString] writes for a date with a
    year of four digits is read back by the [Date] constructor as a valid
    date: midnight UTC of the day whose year, month and day in UTC are the
    year, month and day of the written date in local time. *)
Theorem toDateString_read_back (h : Host) (t : Z) :
  1000 <= YearFromTime (LocalTime h t) <= 9999 ->
  exists u,
    Date_of_string h (toDateString h (Some t)) = Some u /\
    TimeWithinDay u = 0 /\
    YearFromTime u = YearFromTime (LocalTime h t) /\
    MonthFromTime u = MonthFromTime (LocalTime h t) /\
    DateFromTime u = DateFromTime (LocalTime h t).
Proof.
  intros Hy. exists (Day (LocalTime h t) * msPerDay).
  assert (Hday : Day (Day (LocalTime h t) * msPerDay) = Day (LocalTime h t)).
  { rewrite <- (Z.add_0_r (_ * _)). apply Day_of_midnight. unfold msPerDay. lia. }
  split; [now apply Date_of_string_toDateString |].
  split; [unfold TimeWithinDay; apply Z.mod_mul; discriminate |].
  split; [apply YearFromTime_same_day, Hday |].
  split; [apply MonthFromTime_same_day, Hday |].
  apply DateFromTime_same_day, Hday.
Qed.

Lemma toDateString_read_back_witness :
  exists u,
    Date_of_string (sample_host (-18000000))
      (toDateString (sample_host (-18000000)) (Some 1740805200000)) = Some u /\
    TimeWithinDay u = 0 /\
    YearFromTime u = YearFromTime (LocalTime (sample_host (-18000000)) 1740805200000) /\
    MonthFromTime u = MonthFromTime (LocalTime (sample_host (-18000000)) 1740805200000) /\
    DateFromTime u = DateFromTime (LocalTime (sample_host (-18000000)) 1740805200000).
Proof.
  apply (toDateString_read_back (sample_host (-18000000)) 1740805200000).
  vm_compute. split; discriminate.
Defined.

(** ** A review, then the next scan *)

Lemma toDateString_not_empty (h : Host) (d : Date) :
  String.eqb (toDateString h d) EmptyString = false.
Proof.
  unfold toDateString. now destruct (Number_toString h (getFullYear h d)).
Qed.

Lemma applyReview_fields (h : Host) (settings : ReviewReminderSettings)
    (fm : list (string * value)) (nextDate : Date) (newFreq : number) :
  freqProperty settings <> dateProperty settings ->
  let fm' := applyReview h settings fm nextDate newFreq in
  get fm' (dateProperty settings) = VString (toDateString h nextDate) /\
  get fm' (freqProperty settings) = VNumber newFreq /\
  (forall key, key <> freqProperty settings -> key <> dateProperty settings ->
               get fm' key = get fm key).
Proof.
  intros Hne fm'. unfold fm', applyReview. rewrite !get_set.
  rewrite !String.eqb_refl.
  destruct (String.eqb_spec (dateProperty settings) (freqProperty settings));
    [congruence |].
  repeat split. intros key Hf Hd. rewrite !get_set.
  destruct (String.eqb_spec (dateProperty settings) key); [congruence |].
  destruct (String.eqb_spec (freqProperty settings) key); congruence.
Qed.

Lemma YearFromTime_before_10000 (t : Z) :
  t < year10000 -> YearFromTime t <= 9999.
Proof.
  intros Ht. pose proof (YearFromTime_spec t) as [Hs _].
  destruct (Z.le_gt_cases (YearFromTime t) 9999) as [H | H]; [exact H |].
  exfalso.
  assert (Hday : Day t < 2932897)
    by (unfold Day, msPerDay, year10000 in *; Z.div_mod_to_equations; lia).
  assert (H10 : DayFromYear 10000 = 2932897) by reflexivity.
  destruct (Z.eq_dec (YearFromTime t) 10000) as [E | E].
  - rewrite E in Hs. lia.
  - pose proof (DayFromYear_gap 10000 (YearFromTime t) ltac:(lia)). lia.
Qed.



(** X10. When the table gives no interval for the level of a note (X3: a
    negative or fractional level below the length of the table), the modal
    computes an Invalid Date, and confirming writes the text
    ["NaN-NaN-NaN"] into the date field; on a host whose date parser
    rejects that text, every later scan passes the file over. *)
Theorem review_without_interval (h : Host) (settings : ReviewReminderSettings)
    (now : Z) (note : ReviewNote) (fm : list (string * value)) :
  getInterval (parseIntervals (intervals settings)) (reviewFreq note) = None ->
  forall newFreq interval nextDate,
    ReviewModal_onOpen h settings now note = (newFreq, interval, nextDate) ->
    nextDate = None /\
    get (applyReview h settings fm nextDate newFreq) (dateProperty settings)
    = VString "NaN-NaN-NaN" /\
    (Date_parse_other h "NaN-NaN-NaN" = None ->
     forall today f,
       scan_file h settings today f
         (Some (applyReview h settings fm nextDate newFreq)) = Normal None).
Proof.
  intros Hnone newFreq interval nextDate. unfold ReviewModal_onOpen.
  rewrite Hnone. intros [= <- <- <-].
  assert (Hdate : plusDays h now None = None).
  { reflexivity. }
  rewrite Hdate.
  assert (Hget : get (applyReview h settings fm None
                        (num_add (reviewFreq note) (of_Z 1)))
                     (dateProperty settings) = VString "NaN-NaN-NaN").
  { unfold applyReview. rewrite get_set, String.eqb_refl. reflexivity. }
  split; [reflexivity |]. split; [exact Hget |].
  intros Hhost today f. apply scan_file_undated. right.
  rewrite Hget. exists "NaN-NaN-NaN". split; [reflexivity | exact Hhost].
Qed.

Lemma review_without_interval_witness :
  let note := {| file := sample_file; title := "a"; reviewNext := None;
                 reviewFreq := of_Z (-1); tags := []; daysUntil := of_Z 0 |} in
  get (applyReview (sample_host 0) DEFAULT_SETTINGS [] None
         (num_add (reviewFreq note) (of_Z 1))) "review_next"
  = VString "NaN-NaN-NaN".
Proof.
  intros note.
  refine (proj1 (proj2
            (review_without_interval (sample_host 0) DEFAULT_SETTINGS
               1740805200123 note [] _ _ _ None _))).
  - reflexivity.
  - reflexivity.
Defined.

(** ** Scan, further *)

Lemma scan_loop_Throw (h : Host) (settings : ReviewReminderSettings)
    (today : Date) (files : Vault) (e : error) :
  forall acc,
    scan_loop h settings today files acc = Throw e <->
    exists f c, In (f, c) files /\ scan_file h settings today f c = Throw e.
Proof.
  induction files as [| [f c] files IH]; intros acc; cbn [scan_loop].
  - split; [discriminate | intros (f & c & [] & _)].
  - destruct (scan_file h settings today f c) as [r | e0] eqn:Hf; cbn [bind].
    + rewrite IH. split.
      * intros (f' & c' & Hin & Ht). exists f', c'. split; [now right | exact Ht].
      * intros (f' & c' & [Heq | Hin] & Ht).
        -- inversion Heq; subst. congruence.
        -- now exists f', c'.
    + destruct e0, e. split; [| reflexivity].
      intros _. exists f, c. split; [now left | exact Hf].
Qed.

Lemma scan_file_Throw (h : Host) (settings : ReviewReminderSettings)
    (today : Date) (f : TFile) (c : option (list (string * value))) (e : error) :
  scan_file h settings today f c = Throw e <->
  exists fm,
    c = Some fm /\
    ToBoolean (get fm (dateProperty settings)) = true /\
    (ToString h (get fm (dateProperty settings)) = Throw TypeError \/
     exists s,
       ToString h (get fm (dateProperty settings)) = Normal s /\
       stripTime h (Date_of_string h s) <> None /\
       (ToNumber h (nullish (get fm (freqProperty settings)) (VNumber (of_Z 0)))
        = Throw TypeError \/
        map_String h (nullish (get fm "tags") (VArray [])) = Throw TypeError)).
Proof.
  unfold scan_file. destruct c as [fm |].
  2: { split; [discriminate | intros (fm & [=] & _)]. }
  destruct (ToBoolean (get fm (dateProperty settings))) eqn:Hraw; cbn [negb].
  2: { split; [discriminate | intros (fm' & [= <-] & H & _); congruence]. }
  destruct e.
  destruct (ToString h (get fm (dateProperty settings))) as [s | []] eqn:Hs;
    cbn [bind].
  2: { split; [| reflexivity]. intros _. exists fm.
       split; [reflexivity |]. split; [exact Hraw |]. now left. }
  destruct (stripTime h (Date_of_string h s)) as [t |] eqn:Hdate.
  2: { split; [discriminate |].
       intros (fm' & [= <-] & _ & [H | (s' & Hs' & H & _)]); [congruence |].
       rewrite Hs in Hs'. injection Hs' as E. rewrite <- E in H. congruence. }
  destruct (ToNumber h _) as [level | []] eqn:Hlevel; cbn [bind].
  2: { split; [| reflexivity]. intros _. exists fm.
       split; [reflexivity |]. split; [exact Hraw |]. right. exists s.
       split; [exact Hs |]. split; [rewrite Hdate; discriminate | now left]. }
  destruct (map_String h _) as [tgs | []] eqn:Htags; cbn [bind].
  - split; [discriminate |].
    intros (fm' & [= <-] & _ & [H | (s' & _ & _ & [H | H])]);
      congruence.
  - split; [| reflexivity]. intros _. exists fm.
    split; [reflexivity |]. split; [exact Hraw |]. right. exists s.
    split; [exact Hs |]. split; [rewrite Hdate; discriminate | now right].
Qed.

Lemma ToNumber_Throw (h : Host) (v : value) :
  ToNumber h v = Throw TypeError <-> ToString h v = Throw TypeError.
Proof.
  destruct v; cbn [ToNumber]; try (split; discriminate).
  - destruct (ToString h (VArray elements)) as [s | []]; cbn [bind];
      split; congruence.
  - destruct (ToString h (VObject properties)) as [s | []]; cbn [bind];
      split; congruence.
Qed.

Lemma map_ToString_Throw (h : Host) (elements : list value) :
  map_ToString h elements = Throw TypeError <->
  exists x, In x elements /\ ToString h x = Throw TypeError.
Proof.
  induction elements as [| x rest IH]; cbn [map_ToString].
  - split; [discriminate | intros (x & [] & _)].
  - destruct (ToString h x) as [s | []] eqn:Hx; cbn [bind].
    + destruct (map_ToString h rest) as [ss | []]; cbn [bind].
      * split; [discriminate |]. intros (y & [<- | Hin] & Hy); [congruence |].
        assert (E : @Normal (list string) ss = Throw TypeError)
          by (apply (proj2 IH); now exists y).
        discriminate E.
      * split; [| reflexivity]. intros _.
        destruct (proj1 IH eq_refl) as (y & Hin & Hy).
        exists y. split; [now right | exact Hy].
    + split; [| reflexivity]. intros _. exists x. split; [now left | exact Hx].
Qed.

(** X11. A scan throws, and then it throws a [TypeError], exactly when the
    vault has a file with frontmatter whose date field is truthy and
    either has no string, or has a string that parses to a valid date
    while the level field has no number or the [tags] field has no [map]
    to call or an element without a string. A level has no number exactly
    when it has no string; the tags make the scan throw exactly when they
    are neither absent or [null] nor an array, or are an array with an
    element that has no string; an object has no string exactly when it
    has a property [toString]. Files that the scan passes over for their
    date cannot make it throw, whatever their level and tags. (The
    property names are not names of members every object inherits.) *)
Theorem scanVault_throws_iff (h : Host) (settings : ReviewReminderSettings)
    (now : Z) (files : Vault) :
  inherited_name (dateProperty settings) = false ->
  inherited_name (freqProperty settings) = false ->
  (scanVault h settings now files = Throw TypeError <->
   exists f fm,
     In (f, Some fm) files /\
     ToBoolean (get fm (dateProperty settings)) = true /\
     (ToString h (get fm (dateProperty settings)) = Throw TypeError \/
      exists s,
        ToString h (get fm (dateProperty settings)) = Normal s /\
        stripTime h (Date_of_string h s) <> None /\
        (ToNumber h (nullish (get fm (freqProperty settings)) (VNumber (of_Z 0)))
         = Throw TypeError \/
         map_String h (nullish (get fm "tags") (VArray [])) = Throw TypeError))) /\
  (forall v, ToNumber h v = Throw TypeError <-> ToString h v = Throw TypeError) /\
  (forall v,
     map_String h v = Throw TypeError <->
     (forall elements, v <> VArray elements) \/
     (exists elements x,
        v = VArray elements /\ In x elements /\
        ToString h x = Throw TypeError)) /\
  (forall properties,
     ToString h (VObject properties) = Throw TypeError <->
     has_own properties "toString" = true).
Proof.
  intros _ _. split; [| split; [| split]].
  - unfold scanVault.
    destruct (scan_loop h settings (stripTime h (Some now)) files []) as [ns | e]
      eqn:Hloop; cbn [bind].
    + split; [discriminate |]. intros (f & fm & Hin & Hraw & Hdate).
      assert (Hthrow : scan_loop h settings (stripTime h (Some now)) files []
                       = Throw TypeError).
      { apply scan_loop_Throw. exists f, (Some fm). split; [exact Hin |].
        apply scan_file_Throw. now exists fm. }
      congruence.
    + destruct e. split; [| reflexivity]. intros _.
      apply scan_loop_Throw in Hloop. destruct Hloop as (f & c & Hin & Ht).
      apply scan_file_Throw in Ht. destruct Ht as (fm & -> & H).
      now exists f, fm.
  - apply ToNumber_Throw.
  - intros v. destruct v; cbn [map_String];
      try (split; [intros _; left; intros elements; discriminate | reflexivity]).
    rewrite map_ToString_Throw. split.
    + intros (x & Hin & Hx). right. now exists elements, x.
    + intros [H | (els & x & [= <-] & Hin & Hx)].
      * now specialize (H elements).
      * now exists x.
  - intros properties. cbn [ToString].
    destruct (has_own properties "toString"); split; congruence.
Qed.

Lemma scan_file_Some (h : Host) (settings : ReviewReminderSettings)
    (today : Date) (f : TFile) (c : option (list (string * value)))
    (n : ReviewNote) :
  scan_file h settings today f c = Normal (Some n) ->
  exists fm s,
    c = Some fm /\ file n = f /\ title n = basename f /\
    ToBoolean (get fm (dateProperty settings)) = true /\
    ToString h (get fm (dateProperty settings)) = Normal s /\
    reviewNext n = stripTime h (Date_of_string h s) /\
    reviewNext n <> None /\
    daysUntil n = daysBetween today (reviewNext n) /\
    ToNumber h (nullish (get fm (freqProperty settings)) (VNumber (of_Z 0)))
    = Normal (reviewFreq n) /\
    map_String h (nullish (get fm "tags") (VArray [])) = Normal (tags n).
Proof.
  destruct c as [fm |]; [| discriminate]. intros H.
  destruct (scan_file_pushed _ _ _ _ _ _ H)
    as [s [t [level [tgs [Hraw [Hs [Hdate [Hlevel [Htags ->]]]]]]]]].
  exists fm, s. cbn [file title reviewNext daysUntil reviewFreq tags].
  split; [reflexivity |]. split; [reflexivity |]. split; [reflexivity |].
  split; [exact Hraw |]. split; [exact Hs |]. split; [now rewrite Hdate |].
  split; [discriminate |]. split; [reflexivity |]. split; [exact Hlevel |].
  exact Htags.
Qed.

Lemma encountered_length (h : Host) (settings : ReviewReminderSettings)
    (today : Date) (files : Vault) :
  (List.length (encountered h settings today files) <= List.length files)%nat.
Proof.
  unfold encountered. induction files as [| [f c] files IH]; cbn [flat_map];
    [apply Nat.le_refl |].
  rewrite length_app. cbn [fst snd List.length].
  destruct (scan_file h settings today f c) as [[n |] | e]; cbn [List.length]; lia.
Qed.

(** X12. Every note of a scan comes from a file of the vault that has
    frontmatter with a truthy date field (the property names are not names
    of members every object inherits): it carries that file and its base
    name as title, a valid date (the stripped date read from the string of
    the field), the day count from today to that date, the number of the
    level field (0 when it is absent or [null], the number itself when it
    holds one) and the strings of the elements of the [tags] field (none
    when it is absent or [null]); and a scan never returns more notes than
    the vault has files. *)
Theorem scanVault_notes (h : Host) (settings : ReviewReminderSettings)
    (now : Z) (files : Vault) (notes : list ReviewNote) :
  inherited_name (dateProperty settings) = false ->
  inherited_name (freqProperty settings) = false ->
  scanVault h settings now files = Normal notes ->
  (List.length notes <= List.length files)%nat /\
  Forall
    (fun n =>
       exists fm s,
         In (file n, Some fm) files /\
         title n = basename (file n) /\
         ToBoolean (get fm (dateProperty settings)) = true /\
         ToString h (get fm (dateProperty settings)) = Normal s /\
         reviewNext n = stripTime h (Date_of_string h s) /\
         reviewNext n <> None /\
         daysUntil n = daysBetween (stripTime h (Some now)) (reviewNext n) /\
         ToNumber h (nullish (get fm (freqProperty settings)) (VNumber (of_Z 0)))
         = Normal (reviewFreq n) /\
         (get fm (freqProperty settings) = VUndefined \/
          get fm (freqProperty settings) = VNull -> reviewFreq n = of_Z 0) /\
         (forall x, get fm (freqProperty settings) = VNumber x ->
                    reviewFreq n = x) /\
         map_String h (nullish (get fm "tags") (VArray [])) = Normal (tags n) /\
         (get fm "tags" = VUndefined \/ get fm "tags" = VNull -> tags n = []))
    notes.
Proof.
  intros _ _ Hscan. rewrite (scanVault_Normal _ _ _ _ _ Hscan). split.
  - rewrite (Permutation_length (Array_sort_Permutation _ _)).
    apply encountered_length.
  - apply Array_sort_Forall. apply Forall_forall. intros n Hn.
    unfold encountered in Hn. apply in_flat_map in Hn.
    destruct Hn as ([f c] & Hin & Hn). cbn [fst snd] in Hn.
    destruct (scan_file h settings (stripTime h (Some now)) f c)
      as [[n' |] | e] eqn:Hf; try contradiction.
    destruct Hn as [<- | []].
    destruct (scan_file_Some _ _ _ _ _ _ Hf)
      as (fm & s & -> & Hfile & Ht & Hraw & Hs & Hnext & Hvalid & Hdays
          & Hfreq & Htags).
    destruct (scan_file_level_default _ _ _ _ _ _ Hf) as [Hl0 Hlx].
    destruct (scan_file_tags _ _ _ _ _ _ Hf) as [Ht0 _].
    exists fm, s. rewrite Hfile. repeat split; assumption.
Qed.

Lemma scanVault_notes_witness :
  exists notes,
    scanVault (sample_host 0) DEFAULT_SETTINGS 1740805200123 sample_vault
    = Normal notes /\
    (List.length notes <= List.length sample_vault)%nat.
Proof.
  eexists. split; [vm_compute; reflexivity |].
  refine (proj1 (scanVault_notes (sample_host 0) DEFAULT_SETTINGS
                   1740805200123 sample_vault _ eq_refl eq_refl _)).
  vm_compute. reflexivity.
Defined.

(** ** Settings form *)

Lemma trimStart_head (s : string) :
  trimStart s = EmptyString \/
  exists c r, trimStart s = String c r /\ is_whitespace c = false.
Proof.
  induction s as [| c s IH]; cbn [trimStart]; [now left |].
  destruct (is_whitespace c) eqn:Hc; [exact IH |]. right. now exists c, s.
Qed.

Lemma trimEnd_head (c : ascii) (s : string) :
  is_whitespace c = false -> exists r, trimEnd (String c s) = String c r.
Proof.
  intros Hc. cbn [trimEnd]. rewrite Hc. destruct (trimEnd s); eauto.
Qed.

Lemma trimEnd_trimEnd (s : string) : trimEnd (trimEnd s) = trimEnd s.
Proof.
  induction s as [| c s IH]; [reflexivity |]. cbn [trimEnd].
  destruct (trimEnd s) as [| a r] eqn:Hs.
  - destruct (is_whitespace c) eqn:Hc; [reflexivity |].
    cbn [trimEnd]. now rewrite Hc.
  - cbn [trimEnd] in *. now rewrite IH.
Qed.

Lemma trim_trim (s : string) : trim (trim s) = trim s.
Proof.
  unfold trim. destruct (trimStart_head s) as [-> | (c & r & -> & Hc)];
    [reflexivity |].
  destruct (trimEnd_head c r Hc) as [r' Hr]. rewrite Hr.
  cbn [trimStart]. rewrite Hc, <- Hr. apply trimEnd_trimEnd.
Qed.

(** X13. A field name typed into the settings is stored trimmed, and a
    blank one is replaced by the default name: after either handler the
    name it sets is not empty and has no white space at either end (it is
    its own trim), and the other settings are as before. *)
Theorem property_names_never_blank (settings : ReviewReminderSettings)
    (value : string) :
  let s1 := onChange_dateProperty settings value in
  let s2 := onChange_freqProperty settings value in
  dateProperty s1 <> EmptyString /\ trim (dateProperty s1) = dateProperty s1 /\
  freqProperty s2 <> EmptyString /\ trim (freqProperty s2) = freqProperty s2 /\
  (trim value <> EmptyString ->
   dateProperty s1 = trim value /\ freqProperty s2 = trim value) /\
  (trim value = EmptyString ->
   dateProperty s1 = "review_next" /\ freqProperty s2 = "review_freq") /\
  freqProperty s1 = freqProperty settings /\
  dateProperty s2 = dateProperty settings /\
  intervals s1 = intervals settings /\ intervals s2 = intervals settings /\
  upcomingDays s1 = upcomingDays settings /\
  upcomingDays s2 = upcomingDays settings /\
  notifyOnStartup s1 = notifyOnStartup settings /\
  notifyOnStartup s2 = notifyOnStartup settings.
Proof.
  cbn zeta. unfold onChange_dateProperty, onChange_freqProperty.
  cbn [dateProperty freqProperty intervals upcomingDays notifyOnStartup].
  pose proof (trim_trim value) as Ht.
  destruct (trim value) as [| c r] eqn:Hv; cbn [or_string].
  - repeat split; try discriminate; try reflexivity; congruence.
  - repeat split; try discriminate; try reflexivity; try exact Ht; congruence.
Qed.

(** ** Labels *)

Lemma Z_toString_inj (a b : Z) : Z_toString a = Z_toString b -> a = b.
Proof.
  unfold Z_toString. intros H.
  assert (Hn : forall z, Z.to_int z <> Decimal.Pos Decimal.Nil /\
                         Z.to_int z <> Decimal.Neg Decimal.Nil).
  { intros [| p | p]; cbn [Z.to_int]; split; try discriminate;
      intros [= Hp]; now apply DecimalPos.Unsigned.to_uint_nonnil in Hp. }
  apply DecimalZ.to_int_inj.
  assert (Hs : Some (Z.to_int a) = Some (Z.to_int b)).
  { rewrite <- (NilZero.isi (Z.to_int a)), <- (NilZero.isi (Z.to_int b));
      try apply Hn. now rewrite H. }
  now injection Hs.
Qed.



Lemma property_names_never_blank_witness :
  dateProperty (onChange_dateProperty DEFAULT_SETTINGS "  due  ") = "due" /\
  dateProperty (onChange_dateProperty DEFAULT_SETTINGS "   ") = "review_next".
Proof.
  split.
  - apply (proj1 (proj2 (proj2 (proj2 (proj2
             (property_names_never_blank DEFAULT_SETTINGS "  due  ")))))).
    discriminate.
  - apply (proj1 (proj2 (proj2 (proj2 (proj2 (proj2
             (property_names_never_blank DEFAULT_SETTINGS "   "))))))).
    reflexivity.
Defined.

Lemma Math_abs_of_Z (z : Z) : Math_abs (of_Z z) = of_Z (Z.abs z).
Proof.
  unfold Math_abs, of_Z. f_equal.
  change (Qabs.Qabs (inject_Z z)) with (inject_Z (Z.abs z)).
  apply Qred_inject_Z.
Qed.

Lemma list_ascii_of_string_app (a b : string) :
  list_ascii_of_string (a ++ b)%string
  = list_ascii_of_string a ++ list_ascii_of_string b.
Proof.
  induction a as [| c a IH]; cbn [append list_ascii_of_string app];
    [reflexivity | now rewrite IH].
Qed.

Lemma append_cancel_r (x y s : string) :
  (x ++ s)%string = (y ++ s)%string -> x = y.
Proof.
  intros H. apply (f_equal list_ascii_of_string) in H.
  rewrite !list_ascii_of_string_app in H. apply app_inv_tail in H.
  apply (f_equal string_of_list_ascii) in H.
  now rewrite !string_of_list_ascii_of_string in H.
Qed.

(** X15. Distinct day counts never show the same label: on integer day
    counts (below 1e21 in size) [relativeLabel] is one-to-one; so "Today"
    stands for 0 only, "Tomorrow" for 1 only, "1 day overdue" for -1 only,
    and an overdue label and an upcoming label never coincide. *)
Theorem relativeLabel_distinct (h : Host) (a b : Z) :
  Z.abs a < 10 ^ 21 -> Z.abs b < 10 ^ 21 ->
  relativeLabel h (of_Z a) = relativeLabel h (of_Z b) -> a = b.
Proof.
  intros Ha Hb. unfold relativeLabel.
  rewrite !num_ltb_of_Z, !num_eqb_of_Z, !Math_abs_of_Z.
  rewrite !Number_toString_of_Z by lia.
  destruct (Z.ltb_spec a (-1)), (Z.eqb_spec a (-1)), (Z.eqb_spec a 0),
    (Z.eqb_spec a 1); try lia;
    destruct (Z.ltb_spec b (-1)), (Z.eqb_spec b (-1)), (Z.eqb_spec b 0),
      (Z.eqb_spec b 1); try lia; intros E;
    first
      [ discriminate E
      | apply append_cancel_r in E; apply Z_toString_inj in E; lia
      | cbn [append] in E; injection E as E; apply append_cancel_r in E;
        apply Z_toString_inj in E; exact E
      | apply (f_equal (fun s => rev (list_ascii_of_string s))) in E;
        cbn beta in E;
        rewrite ?list_ascii_of_string_app, ?rev_app_distr in E;
        cbn [list_ascii_of_string rev app] in E; discriminate E ].
Qed.

Lemma relativeLabel_distinct_witness :
  relativeLabel (sample_host 0) (of_Z (-3)) = "3 days overdue" /\ 2 - 5 = -3.
Proof.
  split; [reflexivity |].
  apply (relativeLabel_distinct (sample_host 0) (2 - 5) (-3));
    vm_compute; reflexivity.
Defined.

(** ** A level that is no number *)



(** ** The threshold *)

(** X17. Raising the threshold only moves notes from [later] to
    [upcoming]: for integer thresholds 0 <= th1 <= th2 and notes with
    integer day counts, [overdue] and [today] are the same under both,
    [later] under [th2] is the part of [later] under [th1] that is more
    than [th2] days away, and [upcoming] under [th1] is the part of
    [upcoming] under [th2] that is at most [th1] days away. *)
Theorem bucketize_threshold (s1 s2 : ReviewReminderSettings)
    (notes : list ReviewNote) (th1 th2 : Z) :
  0 <= th1 <= th2 ->
  upcomingDays s1 = of_Z th1 -> upcomingDays s2 = of_Z th2 ->
  Forall whole_days notes ->
  overdue (bucketize s2 notes) = overdue (bucketize s1 notes) /\
  today (bucketize s2 notes) = today (bucketize s1 notes) /\
  later (bucketize s2 notes)
  = filter (fun n => th2 <? days n) (later (bucketize s1 notes)) /\
  upcoming (bucketize s1 notes)
  = filter (fun n => days n <=? th1) (upcoming (bucketize s2 notes)).
Proof.
  intros Hth H1 H2 Hall. unfold bucketize.
  rewrite H1, H2, !bucketize_step_filters by (assumption || lia).
  cbn [overdue today upcoming later app].
  split; [reflexivity |]. split; [reflexivity |]. split.
  - induction notes as [| n notes IH]; [reflexivity |]. cbn [filter].
    inversion Hall; subst.
    destruct (Z.ltb_spec th1 (days n)), (Z.ltb_spec th2 (days n));
      cbn [filter]; try lia;
      try (destruct (Z.ltb_spec th2 (days n)); try lia);
      rewrite IH by assumption; reflexivity.
  - induction notes as [| n notes IH]; [reflexivity |]. cbn [filter].
    inversion Hall; subst.
    destruct (Z.ltb_spec 0 (days n)), (Z.leb_spec (days n) th1),
      (Z.leb_spec (days n) th2); cbn [andb filter]; try lia;
      try (destruct (Z.leb_spec (days n) th1); try lia);
      rewrite IH by assumption; reflexivity.
Qed.

Lemma bucketize_threshold_witness :
  let notes := map sample_note [8; -3; 7; 0; 20] in
  later (bucketize (onChange_dateProperty DEFAULT_SETTINGS "due") notes)
  = filter (fun n => 7 <? days n)
      (later (bucketize
                {| dateProperty := "due"; freqProperty := "review_freq";
                   upcomingDays := of_Z 1; intervals := EmptyString;
                   notifyOnStartup := true |} notes)).
Proof.
  intros notes.
  refine (proj1 (proj2 (proj2 (bucketize_threshold _ _ notes 1 7 _ _ _ _)))).
  - lia.
  - reflexivity.
  - reflexivity.
  - repeat constructor.
Defined.

(** ** Further sample runs *)

Lemma bucketize_conserves_witness :
  let note := {| file := sample_file; title := "a"; reviewNext := None;
                 reviewFreq := of_Z 0; tags := []; daysUntil := NaN |} in
  In note (later (bucketize DEFAULT_SETTINGS [sample_note 3; note])).
Proof.
  intros note.
  apply (proj2 (proj2 (bucketize_conserves DEFAULT_SETTINGS
                         [sample_note 3; note]))).
  - right. now left.
  - reflexivity.
Defined.

Lemma scanVault_throws_iff_witness :
  scanVault (sample_host 0) DEFAULT_SETTINGS 1740805200123
    [(sample_file, None);
     (sample_file, Some [("review_next", VString "2025-03-09");
                         ("tags", VNumber (of_Z 3))])]
  = Throw TypeError.
Proof.
  apply (proj2 (proj1 (scanVault_throws_iff (sample_host 0) DEFAULT_SETTINGS
                         1740805200123 _ eq_refl eq_refl))).
  exists sample_file,
    [("review_next", VString "2025-03-09"); ("tags", VNumber (of_Z 3))].
  split; [right; now left |]. split; [reflexivity |].
  right. exists "2025-03-09". split; [reflexivity |].
  split; [vm_compute; discriminate | right; reflexivity].
Defined.
